(** * Python_Bootloader_Flasher: the serial flashing driver of
    [serialComm_stt.ipynb], embedded and verified.

    The notebook has three parts: [SerialInterface] (the serial port),
    [BinaryFile] (the firmware image, cut into 4-byte packets) and the state
    machine ([SuperState] and its six subclasses, driven by [Context]).

    Python objects that are mutated in place ([BinaryFile], the state object
    held by [Context]) are modelled by explicit state passing; [print] and
    [serialPort.write] are recorded in a trace of events, in program order;
    exceptions are results. *)

From Stdlib Require Import ZArith List String Ascii Bool Lia.
From Stdlib Require Import Init.Byte Strings.Byte.
Import ListNotations.
Open Scope string_scope.
Open Scope list_scope.
Open Scope Z_scope.

(** ** Python values and built-ins *)

(** The values the notebook prints or stores in a field of varying type
    ([SW_MAJOR] is the int [0] before a load and a [str] after it). *)
Inductive pyval : Type :=
| PyInt (z : Z)
| PyStr (s : string).

(** Observable effects: one [print] call with its arguments, or the bytes
    handed to [serialPort.write]. *)
Inductive event : Type :=
| Print (args : list pyval)
| Write (txBuffer : list byte).

Inductive exn : Type :=
| IndexError | ValueError | OverflowError | TypeError | NotImplementedError.

Inductive outcome (A : Type) : Type :=
| Ok (a : A)
| Raise (e : exn).
Arguments Ok {A} a.
Arguments Raise {A} e.

(** A computation over a mutable object of type [S]: the events it produced,
    the object afterwards, and its value or the exception that ended it.  The
    events and mutations made before an exception are kept. *)
Definition Eff (S A : Type) : Type := S -> list event * S * outcome A.

Definition ret {S A} (a : A) : Eff S A := fun s => ([], s, Ok a).

Definition bind {S A B} (m : Eff S A) (f : A -> Eff S B) : Eff S B :=
  fun s =>
    match m s with
    | (t1, s1, Ok a) =>
        match f a s1 with
        | (t2, s2, r) => (t1 ++ t2, s2, r)
        end
    | (t1, s1, Raise e) => (t1, s1, Raise e)
    end.

Notation "x <- m ;; k" := (bind m (fun x => k))
  (at level 61, m at next level, right associativity).
Notation "m ;; k" := (bind m (fun _ => k))
  (at level 61, right associativity).

Definition gets {S A} (f : S -> A) : Eff S A := fun s => ([], s, Ok (f s)).
Definition modify {S} (f : S -> S) : Eff S unit := fun s => ([], f s, Ok tt).
Definition put {S} (s' : S) : Eff S unit := fun _ => ([], s', Ok tt).
Definition emit {S} (e : event) : Eff S unit := fun s => ([e], s, Ok tt).
Definition raise {S A} (e : exn) : Eff S A := fun s => ([], s, Raise e).
Definition lift {S A} (r : outcome A) : Eff S A := fun s => ([], s, r).

(** [print(a, b, ...)] *)
Definition print {S} (args : list pyval) : Eff S unit := emit (Print args).

Definition trace_of {S A} (r : list event * S * outcome A) : list event :=
  fst (fst r).
Definition state_of {S A} (r : list event * S * outcome A) : S :=
  snd (fst r).
Definition result_of {S A} (r : list event * S * outcome A) : outcome A :=
  snd r.

(** A byte as the int Python reads out of a [bytes] object. *)
Definition byte_to_Z (b : byte) : Z := Z.of_N (Byte.to_N b).

(** The byte of an int in [0, 256). *)
Definition byte_of_Z (z : Z) : byte :=
  match Byte.of_N (Z.to_N z) with
  | Some b => b
  | None => x00
  end.

(** [len(x)] *)
Definition len {A} (l : list A) : Z := Z.of_nat (List.length l).

(** [x[i]] on a list or a [bytes] object: a negative index counts from the
    end, an index out of range raises [IndexError]. *)
Definition getitem {A} (l : list A) (i : Z) : outcome A :=
  let j := if i <? 0 then len l + i else i in
  if j <? 0 then Raise IndexError
  else match nth_error l (Z.to_nat j) with
       | Some a => Ok a
       | None => Raise IndexError
       end.

(** [x[lo:hi]] for [0 <= lo <= hi]: the elements at indices [lo], ...,
    [hi - 1] that exist.  Slicing never raises. *)
Definition slice {A} (l : list A) (lo hi : Z) : list A :=
  firstn (Z.to_nat (hi - lo)) (skipn (Z.to_nat lo) l).

(** [range(n)] *)
Definition range (n : Z) : list Z := map Z.of_nat (seq 0 (Z.to_nat n)).

(** One lower-case hexadecimal digit. *)
Definition hexdigit (n : Z) : ascii :=
  if n <? 10 then ascii_of_N (Z.to_N (48 + n))
  else ascii_of_N (Z.to_N (87 + n)).

(** [bytes.hex()]: two lower-case digits per byte. *)
Fixpoint hex (bs : list byte) : string :=
  match bs with
  | [] => EmptyString
  | b :: rest =>
      String (hexdigit (byte_to_Z b / 16))
        (String (hexdigit (byte_to_Z b mod 16)) (hex rest))
  end.

(** The value of a hexadecimal digit of either case. *)
Definition hexval (c : ascii) : option Z :=
  let n := Z.of_N (N_of_ascii c) in
  if (48 <=? n) && (n <=? 57) then Some (n - 48)
  else if (97 <=? n) && (n <=? 102) then Some (n - 87)
  else if (65 <=? n) && (n <=? 70) then Some (n - 55)
  else None.

(** [bytes.fromhex(s)] on a string without blanks (the notebook only passes
    the output of [hex]): pairs of digits, [ValueError] otherwise. *)
Fixpoint fromhex (s : string) : outcome (list byte) :=
  match s with
  | EmptyString => Ok []
  | String c1 (String c2 rest) =>
      match hexval c1, hexval c2 with
      | Some h, Some l =>
          match fromhex rest with
          | Ok bs => Ok (byte_of_Z (16 * h + l) :: bs)
          | Raise e => Raise e
          end
      | _, _ => Raise ValueError
      end
  | String _ EmptyString => Raise ValueError
  end.

(** The value of a string of decimal digits read left to right, [None] on
    any other character. *)
Fixpoint decimal_digits (s : string) (acc : Z) : option Z :=
  match s with
  | EmptyString => Some acc
  | String c rest =>
      let n := Z.of_N (N_of_ascii c) in
      if (48 <=? n) && (n <=? 57) then decimal_digits rest (10 * acc + (n - 48))
      else None
  end.

(** [int(x)]: an int is returned as it is; a string is parsed in base 10.
    The strings the notebook passes are outputs of [hex], which hold no sign,
    blank or underscore, so a string is accepted exactly when it is a
    non-empty run of decimal digits; anything else is a [ValueError]. *)
Definition py_int (v : pyval) : outcome Z :=
  match v with
  | PyInt z => Ok z
  | PyStr EmptyString => Raise ValueError
  | PyStr s =>
      match decimal_digits s 0 with
      | Some z => Ok z
      | None => Raise ValueError
      end
  end.

(** The [n] low base-256 digits of [z], most significant first. *)
Fixpoint be_bytes (n : nat) (z : Z) : list byte :=
  match n with
  | O => []
  | S k => byte_of_Z ((z / 256 ^ Z.of_nat k) mod 256) :: be_bytes k z
  end.

(** [z.to_bytes(n, 'big')]: [OverflowError] for a negative int or one that
    does not fit in [n] bytes. *)
Definition to_bytes (z : Z) (n : nat) : outcome (list byte) :=
  if (z <? 0) || (256 ^ Z.of_nat n <=? z) then Raise OverflowError
  else Ok (be_bytes n z).

(** One upper-case hexadecimal digit, and [format(z, '04X')] for a 16-bit
    value. *)
Definition hexdigit_upper (n : Z) : ascii :=
  if n <? 10 then ascii_of_N (Z.to_N (48 + n))
  else ascii_of_N (Z.to_N (55 + n)).

Definition format_04X (z : Z) : string :=
  String (hexdigit_upper (z / 4096 mod 16))
    (String (hexdigit_upper (z / 256 mod 16))
       (String (hexdigit_upper (z / 16 mod 16))
          (String (hexdigit_upper (z mod 16)) EmptyString))).

(** ** crcmod's predefined 'crc-ccitt-false'

    [crcmod] is an external library; its 'crc-ccitt-false' is the CRC with
    polynomial 0x11021, initial value 0xFFFF, no bit reflection and no final
    xor, computed here bit by bit over the bytes fed to [update]. *)
Definition crc_shift (crc : Z) : Z :=
  if Z.testbit crc 15
  then Z.land (Z.lxor (Z.shiftl crc 1) 0x1021) 0xFFFF
  else Z.land (Z.shiftl crc 1) 0xFFFF.

Definition crc_update_byte (crc : Z) (b : byte) : Z :=
  Nat.iter 8 crc_shift (Z.lxor crc (Z.shiftl (byte_to_Z b) 8)).

Definition crc_ccitt_false (data : list byte) : Z :=
  fold_left crc_update_byte data 0xFFFF.

(** ** SerialInterface *)

(** [writeSerialBuffer(txBufferStr, echo)]: the hex string is turned into
    bytes, written to the port, and echoed when [echo == 1]. *)
Definition writeSerialBuffer {S} (txBufferStr : string) (echo : Z) : Eff S unit :=
  txBuffer <- lift (fromhex txBufferStr);;
  emit (Write txBuffer);;
  if echo =? 1 then print [PyStr "     TX-> "; PyStr txBufferStr] else ret tt.

(** [readSerialBuffer(echo)].  The mutable object is the port's input buffer:
    [in_waiting] is its length, [read(4)] takes at most four bytes of it (a
    read that times out returns the fewer bytes that are there) and
    [reset_input_buffer] drops the rest.  The result is [None] only when
    nothing is waiting. *)
Definition readSerialBuffer (echo : Z) : Eff (list byte) (option (list byte)) :=
  in_waiting <- gets len;;
  if in_waiting >? 0 then
    serialString <- gets (firstn 4);;
    put [];;
    (if echo =? 1 then print [PyStr "     RX-> "; PyStr (hex serialString)]
     else ret tt);;
    ret (Some serialString)
  else ret None.

(** ** BinaryFile *)

Record BinaryFile : Type := mkBinaryFile {
  fileData : list byte;
  fileSizeBytes : Z;
  fileSizePackets : Z;
  filePackets : list (list byte);
  SW_MAJOR : pyval;
  SW_MINOR : pyval;
  CRC_MSB : Z;
  CRC_LSB : Z
}.

Definition BYTES_PER_PACKET : Z := 4.

(** [BinaryFile.__init__] *)
Definition BinaryFile_init : BinaryFile :=
  mkBinaryFile [] 0 0 [] (PyInt 0) (PyInt 0) 0 0.

Definition set_fileData (v : list byte) (b : BinaryFile) : BinaryFile :=
  mkBinaryFile v (fileSizeBytes b) (fileSizePackets b) (filePackets b)
    (SW_MAJOR b) (SW_MINOR b) (CRC_MSB b) (CRC_LSB b).
Definition set_fileSizeBytes (v : Z) (b : BinaryFile) : BinaryFile :=
  mkBinaryFile (fileData b) v (fileSizePackets b) (filePackets b)
    (SW_MAJOR b) (SW_MINOR b) (CRC_MSB b) (CRC_LSB b).
Definition set_fileSizePackets (v : Z) (b : BinaryFile) : BinaryFile :=
  mkBinaryFile (fileData b) (fileSizeBytes b) v (filePackets b)
    (SW_MAJOR b) (SW_MINOR b) (CRC_MSB b) (CRC_LSB b).
Definition set_filePackets (v : list (list byte)) (b : BinaryFile) : BinaryFile :=
  mkBinaryFile (fileData b) (fileSizeBytes b) (fileSizePackets b) v
    (SW_MAJOR b) (SW_MINOR b) (CRC_MSB b) (CRC_LSB b).
Definition set_SW_MAJOR (v : pyval) (b : BinaryFile) : BinaryFile :=
  mkBinaryFile (fileData b) (fileSizeBytes b) (fileSizePackets b) (filePackets b)
    v (SW_MINOR b) (CRC_MSB b) (CRC_LSB b).
Definition set_SW_MINOR (v : pyval) (b : BinaryFile) : BinaryFile :=
  mkBinaryFile (fileData b) (fileSizeBytes b) (fileSizePackets b) (filePackets b)
    (SW_MAJOR b) v (CRC_MSB b) (CRC_LSB b).
Definition set_CRC_MSB (v : Z) (b : BinaryFile) : BinaryFile :=
  mkBinaryFile (fileData b) (fileSizeBytes b) (fileSizePackets b) (filePackets b)
    (SW_MAJOR b) (SW_MINOR b) v (CRC_LSB b).
Definition set_CRC_LSB (v : Z) (b : BinaryFile) : BinaryFile :=
  mkBinaryFile (fileData b) (fileSizeBytes b) (fileSizePackets b) (filePackets b)
    (SW_MAJOR b) (SW_MINOR b) (CRC_MSB b) v.

(** [math.ceil(n / BYTES_PER_PACKET)].  The quotient is a float; it is exact
    for every length below 2^53, which no file read into memory reaches, so
    the integer ceiling is taken directly. *)
Definition ceil_div (n d : Z) : Z := - ((- n) / d).

(** The packet appended at iteration [idx] of the loop:
    [fileData[idx*4 : idx*4 + 4][::-1]]. *)
Definition packet_at (data : list byte) (idx : Z) : list byte :=
  rev (slice data (idx * BYTES_PER_PACKET)
                  (idx * BYTES_PER_PACKET + BYTES_PER_PACKET)).

(** The loop [for idx in range(fileSizePackets): filePackets.append(...)],
    one append per index.  Its [except] branch is never taken, since slicing
    does not raise. *)
Definition append_packets (data : list byte) (n : Z)
    (packets : list (list byte)) : list (list byte) :=
  fold_left (fun acc idx => acc ++ [packet_at data idx]) (range n) packets.

(** [BinaryFile.loadBinary], on the bytes [open(path, mode="rb").read()]
    returned.  The object is mutated field by field, so the fields assigned
    before an exception keep their new values. *)
Definition loadBinary (contents : list byte) : Eff BinaryFile unit :=
  modify (set_fileData contents);;
  data <- gets fileData;;
  modify (set_fileSizeBytes (len data));;
  modify (set_fileSizePackets (ceil_div (len data) BYTES_PER_PACKET));;
  n <- gets fileSizePackets;;
  modify (fun self => set_filePackets (append_packets data n (filePackets self)) self);;
  packets <- gets filePackets;;
  p80 <- lift (getitem packets 0x80);;
  modify (set_SW_MAJOR (PyStr (hex p80)));;
  p81 <- lift (getitem packets 0x81);;
  modify (set_SW_MINOR (PyStr (hex p81)));;
  let crcValue := crc_ccitt_false data in
  modify (set_CRC_MSB (Z.shiftr (Z.land crcValue 0xFF00) 8));;
  modify (set_CRC_LSB (Z.land crcValue 0x00FF));;
  print [PyStr "--> Loading Binary file to be flashed <--"];;
  size <- gets fileSizeBytes;;
  print [PyStr "--> File Size: "; PyInt size; PyStr " <--"];;
  print [PyStr "--> Nr. of packets to be transmitted: "; PyInt n; PyStr " <--"];;
  p0 <- lift (getitem packets 0);;
  p1 <- lift (getitem packets 1);;
  p2 <- lift (getitem packets 2);;
  print [PyStr "--> Packets example: "; PyStr (hex p0); PyStr " - ";
         PyStr (hex p1); PyStr " - "; PyStr (hex p2)];;
  major <- gets SW_MAJOR;;
  minor <- gets SW_MINOR;;
  print [PyStr "--> SW Version: "; major; PyStr " - "; minor];;
  print [PyStr ("--> CRC-CCITT (16-bit) is: 0x" ++ format_04X crcValue
                ++ String (ascii_of_N 10) EmptyString)%string].

(** ** The state machine *)

(** The six state classes.  Only [SendFlashData_04] has a field, the counter
    of transmitted packets. *)
Inductive State : Type :=
| Idle_01
| CheckHeaderAndEraseMem_02
| Prepare2Flash_03
| SendFlashData_04 (packetNum : Z)
| FlashDone_99
| Error_98.

(** [self.packetNum] *)
Definition packetNum (self : State) : Z :=
  match self with
  | SendFlashData_04 n => n
  | _ => 0
  end.

(** What [serialInterface.readSerialBuffer] hands to the machine: [None] or a
    [bytes] object. *)
Definition Input : Type := option (list byte).

(** The guard every state uses:
    [input is not None and len(input) > 0 and input[0] == op]. *)
Definition has_opcode (input : Input) (op : Z) : bool :=
  match input with
  | None => false
  | Some bs =>
      (len bs >? 0) &&
      match getitem bs 0 with
      | Ok b => byte_to_Z b =? op
      | Raise _ => false
      end
  end.

(** [input[i]] where no guard protects it: subscripting [None] is a
    [TypeError], an index past the end an [IndexError]. *)
Definition input_at {S} (input : Input) (i : Z) : Eff S Z :=
  match input with
  | None => raise TypeError
  | Some bs =>
      match getitem bs i with
      | Ok b => ret (byte_to_Z b)
      | Raise e => raise e
      end
  end.

Section Machine.

(** The global [binaryFile], which the states only read. *)
Variable binaryFile : BinaryFile.

(** *** The methods, class by class.  A [stateTransition] that returns
    [None] is Python's implicit [return None]. *)

Definition Idle_01_stateTransition (input : Input) : Eff State (option State) :=
  if has_opcode input 0x80 then
    print [PyStr "--> Device found! Starting communication to flash SW + sending SW version to MCU <--"];;
    major <- lift (py_int (SW_MAJOR binaryFile));;
    mj <- lift (to_bytes major 1);;
    minor <- lift (py_int (SW_MINOR binaryFile));;
    mn <- lift (to_bytes minor 1);;
    let cmm := [xc0] ++ mj ++ mn ++ [xff] in
    writeSerialBuffer (hex cmm) 1;;
    ret (Some CheckHeaderAndEraseMem_02)
  else ret None.

Definition CheckHeaderAndEraseMem_02_stateActions (input : Input) : Eff State unit :=
  if has_opcode input 0x81 then
    sector <- input_at input 1;;
    print [PyStr "--> Erasing flash memory - Sector "; PyInt sector; PyStr " erased! <--"]
  else ret tt.

Definition CheckHeaderAndEraseMem_02_stateTransition (input : Input)
    : Eff State (option State) :=
  if has_opcode input 0x8E then
    print [PyStr "--> SW version already flashed in MCU. No action! <--"];;
    ret (Some Idle_01)
  else if has_opcode input 0x81 then
    flag <- input_at input 2;;
    if flag =? 0x01 then
      print [PyStr "--> Erasing flash memory - All sectors erased succesfully! <--"];;
      fileSizePacketsHex <- lift (to_bytes (fileSizePackets binaryFile) 3);;
      let cmm := [xc1] ++ fileSizePacketsHex in
      writeSerialBuffer (hex cmm) 1;;
      ret (Some Prepare2Flash_03)
    else ret None
  else ret None.

Definition Prepare2Flash_03_stateActions (input : Input) : Eff State unit :=
  if has_opcode input 0x81 then
    print [PyStr "--> Waiting MCU readiness to start to send binary packets <--"]
  else ret tt.

Definition Prepare2Flash_03_stateTransition (input : Input)
    : Eff State (option State) :=
  if has_opcode input 0x82 then
    print [PyStr "--> Sw authorized to be flashed <--"];;
    ret (Some (SendFlashData_04 0))
  else ret None.

Definition SendFlashData_04_stateActions (input : Input) : Eff State unit :=
  n <- gets packetNum;;
  (if n <? fileSizePackets binaryFile then
     packet <- lift (getitem (filePackets binaryFile) n);;
     writeSerialBuffer (hex packet) 0;;
     put (SendFlashData_04 (n + 1))
   else ret tt);;
  n' <- gets packetNum;;
  if n' mod 250 =? 0 then
    print [PyStr "--> Transmitted packets: "; PyInt n'; PyStr " <--"]
  else ret tt.

Definition SendFlashData_04_stateTransition (input : Input)
    : Eff State (option State) :=
  if has_opcode input 0x84 then
    n <- gets packetNum;;
    print [PyStr "--> Transmission finished - Transmitted "; PyInt n;
           PyStr " of "; PyInt (fileSizePackets binaryFile); PyStr " <--"];;
    msb <- input_at input 2;;
    (if msb =? CRC_MSB binaryFile then
       lsb <- input_at input 3;;
       if lsb =? CRC_LSB binaryFile then
         print [PyStr "--> CRC matched - Data integrity ensured!"]
       else
         print [PyStr "--> CRC not matched - expected - Data integrity not ensured!"]
     else
       print [PyStr "--> CRC not matched - expected - Data integrity not ensured!"]);;
    ret (Some FlashDone_99)
  else if has_opcode input 0x8F then
    print [PyStr "--> Error! <--"];;
    ret (Some Error_98)
  else ret None.

Definition FlashDone_99_stateTransition (input : Input) : Eff State (option State) :=
  if has_opcode input 0x85 then
    print [PyStr "--> Bootloader finished. Jumping to application <--"];;
    ret (Some Idle_01)
  else ret None.

Definition Error_98_stateTransition (input : Input) : Eff State (option State) :=
  print [PyStr "--> Process error. Aborting! <--"];;
  ret (Some Idle_01).

(** *** Method dispatch on the class of [self].  A class without its own
    [stateActions] inherits [SuperState]'s, which is [pass]; every class
    overrides [stateTransition], so [SuperState]'s [NotImplementedError] is
    never reached. *)

Definition stateActions (input : Input) : Eff State unit :=
  fun self =>
    match self with
    | Idle_01 => ret tt self
    | CheckHeaderAndEraseMem_02 => CheckHeaderAndEraseMem_02_stateActions input self
    | Prepare2Flash_03 => Prepare2Flash_03_stateActions input self
    | SendFlashData_04 _ => SendFlashData_04_stateActions input self
    | FlashDone_99 => ret tt self
    | Error_98 => ret tt self
    end.

Definition stateTransition (input : Input) : Eff State (option State) :=
  fun self =>
    match self with
    | Idle_01 => Idle_01_stateTransition input self
    | CheckHeaderAndEraseMem_02 => CheckHeaderAndEraseMem_02_stateTransition input self
    | Prepare2Flash_03 => Prepare2Flash_03_stateTransition input self
    | SendFlashData_04 _ => SendFlashData_04_stateTransition input self
    | FlashDone_99 => FlashDone_99_stateTransition input self
    | Error_98 => Error_98_stateTransition input self
    end.

(** [Context.execute]; the mutable object is [self._state]. *)
Definition execute (input : Input) : Eff State unit :=
  stateActions input;;
  next_state <- stateTransition input;;
  match next_state with
  | Some s => put s
  | None => ret tt
  end.

(** [execute] once per input, in order; an exception ends the run, as the
    polling loop has no handler. *)
Fixpoint run (inputs : list Input) : Eff State unit :=
  match inputs with
  | [] => ret tt
  | input :: rest => execute input;; run rest
  end.

(** One iteration of the polling loop, on the bytes waiting in the port:
    [readSerialBuffer], [context.execute], and the idle counter.  The mutable
    objects are the state and [attemptCntr]. *)
Definition main_iteration (in_buffer : list byte) : Eff (State * Z) unit :=
  fun '(st, attemptCntr) =>
    match readSerialBuffer 1 in_buffer with
    | (t1, _, Ok serialString) =>
        match execute serialString st with
        | (t2, st', Ok _) =>
            (t1 ++ t2,
             (st', match serialString with
                   | None => attemptCntr + 1
                   | Some _ => attemptCntr
                   end),
             Ok tt)
        | (t2, st', Raise e) => (t1 ++ t2, (st', attemptCntr), Raise e)
        end
    | (t1, _, Raise e) => (t1, (st, attemptCntr), Raise e)
    end.

End Machine.

(** The tag of a state, without its counter. *)
Inductive StateKind : Type :=
| KIdle | KCheckHeaderAndEraseMem | KPrepare2Flash | KSendFlashData
| KFlashDone | KError.

Definition kind (s : State) : StateKind :=
  match s with
  | Idle_01 => KIdle
  | CheckHeaderAndEraseMem_02 => KCheckHeaderAndEraseMem
  | Prepare2Flash_03 => KPrepare2Flash
  | SendFlashData_04 _ => KSendFlashData
  | FlashDone_99 => KFlashDone
  | Error_98 => KError
  end.

(** The packets written to the port in a trace, in order. *)
Fixpoint writes (t : list event) : list (list byte) :=
  match t with
  | [] => []
  | Write bs :: rest => bs :: writes rest
  | Print _ :: rest => writes rest
  end.

(** ** Vocabulary of the statements *)

(** A firmware file of 520 bytes (130 packets) with the given bytes at
    offsets 0x200 and 0x204, the low bytes of the two little-endian version
    words, and the image a fresh [BinaryFile] holds after loading it. *)
Definition sample_firmware (major minor : byte) : list byte :=
  repeat x00 512 ++ [major; x00; x00; x00] ++ [minor; x00; x00; x00].

Definition sample_image (major minor : byte) : BinaryFile :=
  state_of (loadBinary (sample_firmware major minor) BinaryFile_init).

(** The progress line [stateActions] prints when the counter is a multiple of
    250. *)
Definition progress_report (n : Z) : list event :=
  if n mod 250 =? 0
  then [Print [PyStr "--> Transmitted packets: "; PyInt n; PyStr " <--"]]
  else [].

(** The image holds at least the packets it announces.  Every image that
    [loadBinary] has filled satisfies this. *)
Definition packets_available (bf : BinaryFile) : Prop :=
  0 <= fileSizePackets bf <= len (filePackets bf).

(** An input that carries one of the two opcodes that end the streaming. *)
Definition terminal (input : Input) : bool :=
  has_opcode input 0x84 || has_opcode input 0x8F.

(** The diagnostic of the 0x84 transition: the two checksum bytes of the
    frame against the image's [CRC_MSB] and [CRC_LSB]. *)
Definition crc_diagnostic (bf : BinaryFile) (msb lsb : Z) : event :=
  if (msb =? CRC_MSB bf) && (lsb =? CRC_LSB bf)
  then Print [PyStr "--> CRC matched - Data integrity ensured!"]
  else Print [PyStr "--> CRC not matched - expected - Data integrity not ensured!"].

(** The opcodes [stateTransition] of each class tests.  [Error_98] tests
    none: its transition is taken on every input. *)
Definition transition_expects (st : State) (op : Z) : bool :=
  match st with
  | Idle_01 => op =? 0x80
  | CheckHeaderAndEraseMem_02 => (op =? 0x8E) || (op =? 0x81)
  | Prepare2Flash_03 => op =? 0x82
  | SendFlashData_04 _ => (op =? 0x84) || (op =? 0x8F)
  | FlashDone_99 => op =? 0x85
  | Error_98 => true
  end.

(** ** The main program *)

(** [closeSerialComm]: the mutable object is whether the port is open. *)
Definition closeSerialComm : Eff bool unit :=
  print [PyStr "     Stop serial pooling!"];;
  put false.

(** The loop [while 1: ...], run over what its iterations observe: the bytes
    waiting in the port when [readSerialBuffer] is called, and whether 'q' is
    down when the exit test is made.  The mutable objects are the state of
    the machine, [attemptCntr] and whether the port is open.  The result is
    [true] when the loop is left by [break], [false] when the observations
    run out with the loop still turning.  The delay loop has no effect. *)
Fixpoint main_loop (binaryFile : BinaryFile) (polls : list (list byte * bool))
    : Eff (State * Z * bool) bool :=
  match polls with
  | [] => ret false
  | (in_buffer, q_pressed) :: rest =>
      fun '(st, attemptCntr, port_open) =>
        match main_iteration binaryFile in_buffer (st, attemptCntr) with
        | (t1, (st', attemptCntr'), Ok _) =>
            if q_pressed || (attemptCntr' >=? 600000000000) then
              match (print [PyStr "Stop serial pooling!"];; closeSerialComm) port_open with
              | (t2, port_open', Ok _) =>
                  (t1 ++ t2, (st', attemptCntr', port_open'), Ok true)
              | (t2, port_open', Raise e) =>
                  (t1 ++ t2, (st', attemptCntr', port_open'), Raise e)
              end
            else
              match main_loop binaryFile rest (st', attemptCntr', port_open) with
              | (t2, s2, r) => (t1 ++ t2, s2, r)
              end
        | (t1, (st', attemptCntr'), Raise e) =>
            (t1, (st', attemptCntr', port_open), Raise e)
        end
  end.

(** The last cell of the notebook, on the bytes of the firmware file: the
    port is opened, the file is loaded into a fresh [BinaryFile], the machine
    starts in [Idle_01], the two banner lines are printed and the loop runs.
    An exception of the load ends the program there, with the port open. *)
Definition main_program (contents : list byte) (polls : list (list byte * bool))
    : list event * (BinaryFile * (State * Z * bool)) * outcome bool :=
  match loadBinary contents BinaryFile_init with
  | (t0, binaryFile, Ok _) =>
      let banner :=
        [Print [PyStr "--> SW Loader @ V1.0. Waiting for device communication <--"];
         Print [PyStr "--> Matheus Sozza @ 2023 <--"]] in
      match main_loop binaryFile polls (Idle_01, 0, true) with
      | (t1, s1, r) => (t0 ++ banner ++ t1, (binaryFile, s1), r)
      end
  | (t0, binaryFile, Raise e) => (t0, (binaryFile, (Idle_01, 0, true)), Raise e)
  end.

(** Inputs of the length the protocol intends: nothing, or four bytes. *)
Definition frame_or_none (input : Input) : bool :=
  match input with
  | None => true
  | Some [_; _; _; _] => true
  | Some _ => false
  end.

(** The image is one the machine can answer from: it holds the packets it
    announces, their number fits three bytes, and both version fields read as
    numbers that fit one byte. *)
Definition image_ready (bf : BinaryFile) : Prop :=
  packets_available bf /\ fileSizePackets bf < 2 ^ 24 /\
  (exists major, py_int (SW_MAJOR bf) = Ok major /\ 0 <= major < 256) /\
  (exists minor, py_int (SW_MINOR bf) = Ok minor /\ 0 <= minor < 256).

(** The counter of a state is within what the image announces. *)
Definition counter_in_range (bf : BinaryFile) (st : State) : Prop :=
  0 <= packetNum st <= fileSizePackets bf.

(** The arrows of the state diagram, loops included. *)
Definition may_follow (k k' : StateKind) : bool :=
  match k, k' with
  | KIdle, (KIdle | KCheckHeaderAndEraseMem) => true
  | KCheckHeaderAndEraseMem, (KCheckHeaderAndEraseMem | KIdle | KPrepare2Flash) => true
  | KPrepare2Flash, (KPrepare2Flash | KSendFlashData) => true
  | KSendFlashData, (KSendFlashData | KFlashDone | KError) => true
  | KFlashDone, (KFlashDone | KIdle) => true
  | KError, KIdle => true
  | _, _ => false
  end.

(** The number of observations in which nothing was waiting in the port. *)
Fixpoint idle_polls (polls : list (list byte * bool)) : Z :=
  match polls with
  | [] => 0
  | ([], _) :: rest => 1 + idle_polls rest
  | (_ :: _, _) :: rest => idle_polls rest
  end.

(** The frames `81 sector flag b3` of a list of reports, and their log
    lines. *)
Definition progress_frames (reports : list (byte * byte * byte)) : list Input :=
  map (fun '(sector, flag, b3) => Some [x81; sector; flag; b3]) reports.

Definition progress_log (reports : list (byte * byte * byte)) : list event :=
  map (fun '(sector, _, _) =>
         Print [PyStr "--> Erasing flash memory - Sector ";
                PyInt (byte_to_Z sector); PyStr " erased! <--"]) reports.

(** * Properties *)

(** ** Indexing, slicing and the packet loop *)

Lemma len_nonneg {A} (l : list A) : 0 <= len l.
Proof. unfold len. lia. Qed.

Lemma len_app {A} (l l' : list A) : len (l ++ l') = len l + len l'.
Proof. unfold len. rewrite length_app. lia. Qed.

Lemma len_map {A B} (f : A -> B) (l : list A) : len (map f l) = len l.
Proof. unfold len. now rewrite length_map. Qed.

Lemma getitem_nth_error {A} (l : list A) (i : Z) :
  0 <= i ->
  getitem l i = match nth_error l (Z.to_nat i) with
                | Some a => Ok a
                | None => Raise IndexError
                end.
Proof.
  intros Hi. unfold getitem.
  destruct (Z.ltb_spec i 0); [lia|].
  destruct (Z.ltb_spec i 0); [lia|]. reflexivity.
Qed.

Lemma getitem_in_range {A} (l : list A) (i : Z) :
  0 <= i < len l -> exists a, getitem l i = Ok a /\ nth_error l (Z.to_nat i) = Some a.
Proof.
  intros Hi. rewrite getitem_nth_error by lia.
  destruct (nth_error l (Z.to_nat i)) as [a|] eqn:E.
  - exists a. split; reflexivity.
  - apply nth_error_None in E. unfold len in Hi. lia.
Qed.

Lemma getitem_past_end {A} (l : list A) (i : Z) :
  len l <= i -> getitem l i = Raise IndexError.
Proof.
  intros Hi. pose proof (len_nonneg l). rewrite getitem_nth_error by lia.
  destruct (nth_error l (Z.to_nat i)) eqn:E; [|reflexivity].
  assert (nth_error l (Z.to_nat i) <> None) as Hs by congruence.
  apply nth_error_Some in Hs. unfold len in Hi. lia.
Qed.

Lemma ceil_div_4_bounds (n : Z) :
  4 * (ceil_div n BYTES_PER_PACKET - 1) < n <= 4 * ceil_div n BYTES_PER_PACKET.
Proof.
  unfold ceil_div, BYTES_PER_PACKET.
  pose proof (Z.div_mod (- n) 4 ltac:(lia)).
  pose proof (Z.mod_pos_bound (- n) 4 ltac:(lia)). lia.
Qed.

Lemma range_length (n : Z) : len (range n) = Z.max 0 n.
Proof. unfold len, range. rewrite length_map, length_seq. lia. Qed.

Lemma append_packets_map (data : list byte) (n : Z) (packets : list (list byte)) :
  append_packets data n packets = packets ++ map (packet_at data) (range n).
Proof.
  unfold append_packets. generalize (range n). intros idxs. revert packets.
  induction idxs as [|idx idxs IH]; intros packets; simpl.
  - now rewrite app_nil_r.
  - rewrite IH, <- app_assoc. reflexivity.
Qed.

Lemma nth_error_range (n : Z) (i : nat) :
  Z.of_nat i < n -> nth_error (range n) i = Some (Z.of_nat i).
Proof.
  intros Hi. unfold range. rewrite nth_error_map, nth_error_seq.
  destruct (Nat.ltb_spec i (Z.to_nat n)); [reflexivity | lia].
Qed.

Lemma packet_at_len (data : list byte) (idx : Z) :
  0 <= idx ->
  len (packet_at data idx) = Z.max 0 (Z.min 4 (len data - 4 * idx)).
Proof.
  intros Hidx. unfold len, packet_at, slice, BYTES_PER_PACKET.
  rewrite length_rev, length_firstn, length_skipn. lia.
Qed.

(** Byte [k] of a packet is the byte of the file that the reversal of its
    slice puts there. *)
Lemma packet_at_getitem (data : list byte) (idx k : Z) :
  0 <= idx -> 0 <= k < len (packet_at data idx) ->
  getitem (packet_at data idx) k
  = getitem data (4 * idx + len (packet_at data idx) - 1 - k).
Proof.
  intros Hidx Hk. pose proof (packet_at_len data idx Hidx) as Hlen.
  rewrite !getitem_nth_error by lia.
  replace (nth_error (packet_at data idx) (Z.to_nat k))
    with (nth_error data (Z.to_nat (4 * idx + len (packet_at data idx) - 1 - k)));
    [reflexivity|].
  revert Hk Hlen. unfold len, packet_at, slice, BYTES_PER_PACKET.
  rewrite length_rev. intros Hk Hlen.
  rewrite nth_error_rev.
  destruct (Nat.ltb_spec (Z.to_nat k)
              (List.length (firstn (Z.to_nat (idx * 4 + 4 - idx * 4))
                              (skipn (Z.to_nat (idx * 4)) data)))) as [Hlt|Hge];
    [|lia].
  rewrite nth_error_firstn.
  match goal with |- _ = (if ?c then _ else _) => destruct c eqn:Hc end.
  - rewrite nth_error_skipn. f_equal. lia.
  - apply Nat.ltb_ge in Hc. rewrite length_firstn in Hc, Hlt. lia.
Qed.

(** ** loadBinary *)

(** What [loadBinary] leaves in the object whether or not it raises: the
    first four assignments and the loop come before anything that can. *)
Lemma loadBinary_sizes (contents : list byte) (self : BinaryFile) :
  let image := state_of (loadBinary contents self) in
  fileData image = contents /\
  fileSizeBytes image = len contents /\
  fileSizePackets image = ceil_div (len contents) BYTES_PER_PACKET /\
  filePackets image
  = filePackets self
    ++ map (packet_at contents) (range (ceil_div (len contents) BYTES_PER_PACKET)).
Proof.
  cbv zeta. rewrite <- append_packets_map.
  unfold loadBinary, bind, modify, gets, lift, print, emit, state_of.
  cbn [fst snd set_fileData set_fileSizeBytes set_fileSizePackets set_filePackets
       fileData fileSizeBytes fileSizePackets filePackets].
  repeat match goal with
  | |- context [match getitem ?l ?i with _ => _ end] => destruct (getitem l i)
  end; cbn; auto.
Qed.

Lemma getitem_packets (contents : list byte) (count i : Z) :
  0 <= i < count ->
  getitem (map (packet_at contents) (range count)) i = Ok (packet_at contents i).
Proof.
  intros Hi. rewrite getitem_nth_error by lia.
  rewrite nth_error_map, nth_error_range by lia. cbn.
  rewrite Z2Nat.id by lia. reflexivity.
Qed.

(** C1. Loading a file of length L into a fresh image leaves
    fileSizePackets = ceil(L/4) (the unique count with
    4*(count-1) < L <= 4*count) and exactly that many packets; every packet
    whose 4-byte slice is complete is that slice with its bytes reversed; and
    when L is not a multiple of 4 the last packet is the reversed tail of
    L mod 4 bytes, without padding.  This is what the object holds after the
    call, also when the call ends in the IndexError of a file too short to
    hold the version words. *)
Theorem loadBinary_packetization (contents : list byte) :
  let image := state_of (loadBinary contents BinaryFile_init) in
  let L := len contents in
  let count := fileSizePackets image in
  4 * (count - 1) < L <= 4 * count /\
  len (filePackets image) = count /\
  (forall i, 0 <= i -> 4 * i + 4 <= L ->
     exists packet,
       getitem (filePackets image) i = Ok packet /\
       len packet = 4 /\
       forall k, 0 <= k < 4 ->
         getitem packet k = getitem contents (4 * i + 3 - k)) /\
  (L mod 4 <> 0 ->
     exists packet,
       getitem (filePackets image) (count - 1) = Ok packet /\
       len packet = L mod 4 /\
       forall k, 0 <= k < L mod 4 ->
         getitem packet k = getitem contents (L - 1 - k)).
Proof.
  cbv zeta.
  destruct (loadBinary_sizes contents BinaryFile_init) as (_ & _ & Hn & Hp).
  rewrite Hn, Hp. cbn [filePackets BinaryFile_init app].
  set (count := ceil_div (len contents) BYTES_PER_PACKET).
  pose proof (ceil_div_4_bounds (len contents)) as Hb. fold count in Hb.
  pose proof (len_nonneg contents) as HL.
  split; [exact Hb|]. split; [|split].
  - rewrite len_map, range_length. lia.
  - intros i Hi Hfull. exists (packet_at contents i).
    assert (len (packet_at contents i) = 4) as Hlen
      by (rewrite packet_at_len by lia; lia).
    split; [apply getitem_packets; lia|]. split; [exact Hlen|].
    intros k Hk. rewrite packet_at_getitem by lia. rewrite Hlen.
    f_equal. lia.
  - intros Hrem. exists (packet_at contents (count - 1)).
    assert (len contents mod 4 = len contents - 4 * (count - 1)) as Hmod.
    { symmetry. apply Z.mod_unique_pos with (q := count - 1); [|lia].
      split; [lia|].
      destruct (Z.eq_dec (len contents) (4 * count)) as [E|E]; [|lia].
      exfalso. apply Hrem. rewrite E, Z.mul_comm. apply Z.mod_mul. lia. }
    assert (0 < count) as Hpos.
    { destruct (Z.eq_dec (len contents) 0) as [E|E]; [|lia].
      exfalso. apply Hrem. rewrite E. reflexivity. }
    assert (len (packet_at contents (count - 1)) = len contents mod 4) as Hlen
      by (rewrite packet_at_len by lia; lia).
    split; [apply getitem_packets; lia|]. split; [exact Hlen|].
    intros k Hk. rewrite packet_at_getitem by lia. rewrite Hlen.
    f_equal. lia.
Qed.

(** An instance: a 5-byte file gives two packets, [4;3;2;1] and the one-byte
    tail. *)
Lemma loadBinary_packetization_witness :
  let image := state_of (loadBinary [x01; x02; x03; x04; x05] BinaryFile_init) in
  fileSizePackets image = 2 /\
  (exists packet, getitem (filePackets image) 0 = Ok packet /\ len packet = 4 /\
     getitem packet 0 = Ok x04) /\
  (exists packet, getitem (filePackets image) 1 = Ok packet /\ len packet = 1 /\
     getitem packet 0 = Ok x05).
Proof.
  cbv zeta.
  destruct (loadBinary_packetization [x01; x02; x03; x04; x05])
    as (Hb & Hl & Hfull & Htail).
  split; [reflexivity|]. split.
  - destruct (Hfull 0 ltac:(lia) ltac:(vm_compute; discriminate))
      as (packet & Hg & Hlen & Hk).
    exists packet. split; [exact Hg|]. split; [exact Hlen|].
    rewrite (Hk 0 ltac:(lia)). reflexivity.
  - destruct (Htail ltac:(vm_compute; discriminate)) as (packet & Hg & Hlen & Hk).
    exists packet. split; [exact Hg|]. split; [exact Hlen|].
    rewrite (Hk 0 ltac:(vm_compute; split; [discriminate|reflexivity])). reflexivity.
Defined.

(** When the load returns: a fresh image needs packets 0x80 and 0x81, that
    is, a file of more than 516 bytes; a shorter one ends the call in the
    IndexError of [filePackets[0x80]] or [filePackets[0x81]]. *)
Lemma loadBinary_result (contents : list byte) :
  result_of (loadBinary contents BinaryFile_init)
  = if len contents <=? 516 then Raise IndexError else Ok tt.
Proof.
  pose proof (ceil_div_4_bounds (len contents)) as Hb.
  unfold loadBinary, bind, modify, gets, lift, print, emit, result_of.
  cbn [fst snd set_fileData set_fileSizeBytes set_fileSizePackets set_filePackets
       fileData fileSizeBytes fileSizePackets filePackets BinaryFile_init].
  rewrite append_packets_map. cbn [app].
  set (count := ceil_div (len contents) BYTES_PER_PACKET) in *.
  destruct (Z.leb_spec (len contents) 516) as [Hshort|Hlong].
  - destruct (Z.le_gt_cases count 0x80) as [H80|H80].
    + rewrite (getitem_past_end _ 0x80) by (rewrite len_map, range_length; lia).
      reflexivity.
    + rewrite (getitem_packets contents count 0x80) by lia. cbn [fst snd].
      rewrite (getitem_past_end _ 0x81) by (rewrite len_map, range_length; lia).
      reflexivity.
  - rewrite (getitem_packets contents count 0x80) by lia. cbn [fst snd].
    rewrite (getitem_packets contents count 0x81) by lia. cbn [fst snd].
    rewrite (getitem_packets contents count 0) by lia.
    rewrite (getitem_packets contents count 1) by lia.
    rewrite (getitem_packets contents count 2) by lia.
    reflexivity.
Qed.

(** ** The guard and the monad, for symbolic runs *)

Lemma has_opcode_None (op : Z) : has_opcode None op = false.
Proof. reflexivity. Qed.

Lemma has_opcode_empty (op : Z) : has_opcode (Some []) op = false.
Proof. reflexivity. Qed.

Lemma has_opcode_cons (b : byte) (rest : list byte) (op : Z) :
  has_opcode (Some (b :: rest)) op = (byte_to_Z b =? op).
Proof.
  unfold has_opcode, len. cbn [List.length getitem].
  replace (Z.of_nat (S (List.length rest)) >? 0) with true
    by (symmetry; apply Z.gtb_lt; lia).
  reflexivity.
Qed.

Lemma byte_to_Z_range (b : byte) : 0 <= byte_to_Z b < 256.
Proof.
  unfold byte_to_Z. pose proof (Byte.to_N_bounded b) as H.
  apply N.leb_le in H. apply N.leb_le in H. lia.
Qed.

Lemma byte_of_to_Z (b : byte) : byte_of_Z (byte_to_Z b) = b.
Proof.
  unfold byte_of_Z, byte_to_Z. rewrite N2Z.id, Byte.of_to_N. reflexivity.
Qed.

Ltac unfold_machine :=
  unfold execute, stateActions, stateTransition,
    Idle_01_stateTransition,
    CheckHeaderAndEraseMem_02_stateActions, CheckHeaderAndEraseMem_02_stateTransition,
    Prepare2Flash_03_stateActions, Prepare2Flash_03_stateTransition,
    SendFlashData_04_stateActions, SendFlashData_04_stateTransition,
    FlashDone_99_stateTransition, Error_98_stateTransition.

Ltac unfold_eff :=
  unfold writeSerialBuffer, input_at, bind, ret, gets, modify, put, print,
    emit, raise, lift, trace_of, state_of, result_of.

(** ** Writing a packet: [fromhex] undoes [hex] *)

Lemma fromhex_hex_cons (b : byte) (rest : string) :
  fromhex (String (hexdigit (byte_to_Z b / 16))
             (String (hexdigit (byte_to_Z b mod 16)) rest))
  = match fromhex rest with
    | Ok bs => Ok (b :: bs)
    | Raise e => Raise e
    end.
Proof. destruct b; reflexivity. Qed.

Lemma fromhex_hex (bs : list byte) : fromhex (hex bs) = Ok bs.
Proof.
  induction bs as [|b bs IH]; [reflexivity|].
  cbn [hex]. rewrite fromhex_hex_cons, IH. reflexivity.
Qed.

Lemma writeSerialBuffer_hex {S} (bs : list byte) (echo : Z) (s : S) :
  writeSerialBuffer (hex bs) echo s
  = (Write bs :: (if echo =? 1 then [Print [PyStr "     TX-> "; PyStr (hex bs)]]
                  else []),
     s, Ok tt).
Proof.
  unfold writeSerialBuffer, bind, lift, emit, print, ret.
  rewrite fromhex_hex. destruct (echo =? 1); reflexivity.
Qed.

(** ** NoFrame *)

(** With no input only [SendFlashData_04] (which streams) and [Error_98]
    (whose transition is unconditional) do anything. *)
Lemma execute_None_quiet (bf : BinaryFile) (st : State) :
  kind st <> KSendFlashData -> kind st <> KError ->
  execute bf None st = ([], st, Ok tt).
Proof.
  intros H1 H2.
  destruct st; try (now elim H1); try (now elim H2);
    unfold_machine; unfold_eff; rewrite ?has_opcode_None; reflexivity.
Qed.

Lemma run_quiet (bf : BinaryFile) (input : Input) (st : State) (n : nat) :
  execute bf input st = ([], st, Ok tt) ->
  run bf (repeat input n) st = ([], st, Ok tt).
Proof.
  intros Hq. induction n as [|n IH]; [reflexivity|].
  cbn [repeat run]. unfold bind. rewrite Hq, IH. reflexivity.
Qed.

(** C2, as stated, fails in Error_98: with no input the state prints its
    abort message and the machine moves to Idle_01. *)
Lemma Error_98_NoFrame_counterexample :
  execute (sample_image x01 x02) None Error_98
    = ([Print [PyStr "--> Process error. Aborting! <--"]], Idle_01, Ok tt) /\
  execute (sample_image x01 x02) None Error_98 <> ([], Error_98, Ok tt).
Proof. split; [reflexivity | discriminate]. Qed.

(** C2, amended. In Idle_01, CheckHeaderAndEraseMem_02, Prepare2Flash_03 and
    FlashDone_99, any number of ticks without input leave the state as it is
    and produce no event.  In Error_98 the first tick without input prints
    the abort message and resets the machine to Idle_01, where the following
    ones do nothing. *)
Theorem NoFrame_idempotent (bf : BinaryFile) :
  (forall (st : State) (n : nat),
     kind st <> KSendFlashData -> kind st <> KError ->
     run bf (repeat None n) st = ([], st, Ok tt)) /\
  (forall n : nat,
     run bf (repeat None (S n)) Error_98
     = ([Print [PyStr "--> Process error. Aborting! <--"]], Idle_01, Ok tt)).
Proof.
  split.
  - intros st n H1 H2. apply run_quiet, execute_None_quiet; assumption.
  - intros n. cbn [repeat run]. unfold bind at 1.
    replace (execute bf None Error_98)
      with ([Print [PyStr "--> Process error. Aborting! <--"]], Idle_01, @Ok unit tt)
      by reflexivity.
    rewrite run_quiet by (apply execute_None_quiet; discriminate).
    reflexivity.
Qed.

Lemma NoFrame_idempotent_witness :
  run (sample_image x01 x02) (repeat None 3) CheckHeaderAndEraseMem_02
  = ([], CheckHeaderAndEraseMem_02, Ok tt).
Proof.
  apply (proj1 (NoFrame_idempotent (sample_image x01 x02))); discriminate.
Defined.

(** ** Streaming *)

Lemma loadBinary_packets_available (contents : list byte) (self : BinaryFile) :
  packets_available (state_of (loadBinary contents self)).
Proof.
  destruct (loadBinary_sizes contents self) as (_ & _ & Hn & Hp).
  unfold packets_available. rewrite Hn, Hp.
  rewrite len_app, len_map, range_length.
  pose proof (len_nonneg (filePackets self)).
  pose proof (ceil_div_4_bounds (len contents)).
  pose proof (len_nonneg contents). lia.
Qed.

Lemma writes_app (t1 t2 : list event) : writes (t1 ++ t2) = writes t1 ++ writes t2.
Proof.
  induction t1 as [|[args|bs] t1 IH]; cbn [app writes]; [reflexivity|exact IH|].
  now rewrite IH.
Qed.

Lemma writes_progress_report (n : Z) : writes (progress_report n) = [].
Proof. unfold progress_report. destruct (n mod 250 =? 0); reflexivity. Qed.

Lemma stateActions_send (bf : BinaryFile) (input : Input) (n : Z) (packet : list byte) :
  n < fileSizePackets bf -> getitem (filePackets bf) n = Ok packet ->
  stateActions bf input (SendFlashData_04 n)
  = (Write packet :: progress_report (n + 1), SendFlashData_04 (n + 1), Ok tt).
Proof.
  intros Hn Hg. unfold stateActions, SendFlashData_04_stateActions.
  unfold bind at 1. unfold gets at 1. cbn [packetNum].
  apply Z.ltb_lt in Hn. rewrite Hn.
  unfold bind, lift. rewrite Hg, writeSerialBuffer_hex.
  unfold put, gets, print, emit, ret, progress_report. cbn [packetNum Z.eqb app].
  destruct ((n + 1) mod 250 =? 0); reflexivity.
Qed.

Lemma stateActions_drained (bf : BinaryFile) (input : Input) (n : Z) :
  fileSizePackets bf <= n ->
  stateActions bf input (SendFlashData_04 n)
  = (progress_report n, SendFlashData_04 n, Ok tt).
Proof.
  intros Hn. unfold stateActions, SendFlashData_04_stateActions.
  unfold bind at 1. unfold gets at 1. cbn [packetNum].
  apply Z.ltb_ge in Hn. rewrite Hn.
  unfold bind, gets, print, emit, ret, progress_report. cbn [packetNum app].
  destruct (n mod 250 =? 0); reflexivity.
Qed.

Lemma stateTransition_not_terminal (bf : BinaryFile) (input : Input) (n : Z) :
  terminal input = false ->
  stateTransition bf input (SendFlashData_04 n) = ([], SendFlashData_04 n, Ok None).
Proof.
  unfold terminal. intros H. apply orb_false_iff in H as [H84 H8F].
  unfold stateTransition, SendFlashData_04_stateTransition.
  rewrite H84, H8F. reflexivity.
Qed.

(** A tick of the streaming state whose input is no terminal frame is its
    [stateActions] alone. *)
Lemma execute_streaming (bf : BinaryFile) (input : Input) (n : Z) :
  terminal input = false ->
  result_of (stateActions bf input (SendFlashData_04 n)) = Ok tt ->
  kind (state_of (stateActions bf input (SendFlashData_04 n))) = KSendFlashData ->
  execute bf input (SendFlashData_04 n) = stateActions bf input (SendFlashData_04 n).
Proof.
  intros Ht Hr Hk. unfold execute, bind.
  destruct (stateActions bf input (SendFlashData_04 n)) as [[t st] r].
  cbn in Hr, Hk. subst r. destruct st; try discriminate.
  rewrite stateTransition_not_terminal by assumption.
  unfold ret. cbn. rewrite app_nil_r. reflexivity.
Qed.

Lemma slice_step {A} (l : list A) (lo hi : Z) (a : A) :
  0 <= lo < hi -> nth_error l (Z.to_nat lo) = Some a ->
  slice l lo hi = a :: slice l (lo + 1) hi.
Proof.
  intros Hlo Ha. unfold slice.
  replace (Z.to_nat (hi - lo)) with (S (Z.to_nat (hi - (lo + 1)))) by lia.
  replace (Z.to_nat (lo + 1)) with (S (Z.to_nat lo)) by lia.
  generalize dependent (Z.to_nat lo). intros k. revert l.
  induction k as [|k IH]; intros l Ha.
  - destruct l as [|x l]; [discriminate|]. cbn in Ha. injection Ha as ->. reflexivity.
  - destruct l as [|x l]; [discriminate|]. cbn in Ha. cbn [skipn]. apply IH, Ha.
Qed.

Lemma slice_empty {A} (l : list A) (lo : Z) : slice l lo lo = [].
Proof. unfold slice. rewrite Z.sub_diag. reflexivity. Qed.

(** Streaming from counter [n] over inputs that hold no terminal frame. *)
Lemma run_streaming (bf : BinaryFile) (inputs : list Input) :
  packets_available bf ->
  Forall (fun input => terminal input = false) inputs ->
  forall n, 0 <= n <= fileSizePackets bf ->
  let r := run bf inputs (SendFlashData_04 n) in
  let n' := Z.min (n + len inputs) (fileSizePackets bf) in
  result_of r = Ok tt /\
  state_of r = SendFlashData_04 n' /\
  writes (trace_of r) = slice (filePackets bf) n n'.
Proof.
  intros Hav Hall. induction Hall as [|input inputs Hin Hall IH]; intros n Hn.
  - cbn. rewrite Z.add_0_r, Z.min_l by lia. rewrite slice_empty. auto.
  - cbv zeta. cbn [run]. unfold bind.
    assert (len (input :: inputs) = len inputs + 1) as Hlen
      by (unfold len; cbn [List.length]; lia).
    pose proof (len_nonneg inputs) as Hpos.
    destruct (Z.eq_dec n (fileSizePackets bf)) as [Heq|Hne].
    + rewrite execute_streaming;
        rewrite ?stateActions_drained by lia; try reflexivity; try assumption.
      specialize (IH n Hn). cbv zeta in IH.
      rewrite Hlen.
      destruct (run bf inputs (SendFlashData_04 n)) as [[t st] r].
      unfold result_of, state_of, trace_of in IH |- *.
      cbn [fst snd] in IH |- *. destruct IH as (Hr & Hs & Hw).
      rewrite writes_app, writes_progress_report, Hw, Hs, Hr.
      rewrite !Z.min_r by lia. auto.
    + unfold packets_available in Hav.
      destruct (getitem_in_range (filePackets bf) n ltac:(lia)) as (packet & Hg & Hnth).
      rewrite execute_streaming;
        rewrite ?(stateActions_send bf input n packet) by (lia || assumption);
        try reflexivity; try assumption.
      specialize (IH (n + 1) ltac:(lia)). cbv zeta in IH.
      rewrite Hlen.
      destruct (run bf inputs (SendFlashData_04 (n + 1))) as [[t st] r].
      unfold result_of, state_of, trace_of in IH |- *.
      cbn [fst snd] in IH |- *. destruct IH as (Hr & Hs & Hw).
      rewrite writes_app, Hs, Hr. cbn [writes app].
      rewrite writes_progress_report, Hw.
      replace (n + (len inputs + 1)) with (n + 1 + len inputs) by lia.
      split; [reflexivity|]. split; [reflexivity|].
      cbn [app]. symmetry. apply slice_step; [lia|exact Hnth].
Qed.

(** C6. In SendFlashData_04, on an image that holds the packets it
    announces: (1) a tick whose counter n is below fileSizePackets writes
    filePackets[n] and nothing else to the port and leaves the counter at
    n + 1, whatever the input; (2) from a counter n within 0..fileSizePackets,
    ticks without a terminal frame leave the counter at
    min(n + ticks, fileSizePackets), so still within 0..fileSizePackets, and
    write exactly the packets from n up to the new counter, in order; (3)
    from the entry counter 0, once fileSizePackets such ticks have passed the
    counter is fileSizePackets and all further such ticks together write
    nothing more. *)
Theorem SendFlashData_04_streaming (bf : BinaryFile) :
  packets_available bf ->
  (forall (input : Input) (n : Z),
     0 <= n < fileSizePackets bf ->
     exists packet,
       getitem (filePackets bf) n = Ok packet /\
       result_of (stateActions bf input (SendFlashData_04 n)) = Ok tt /\
       writes (trace_of (stateActions bf input (SendFlashData_04 n))) = [packet] /\
       state_of (stateActions bf input (SendFlashData_04 n)) = SendFlashData_04 (n + 1)) /\
  (forall (inputs : list Input) (n : Z),
     Forall (fun input => terminal input = false) inputs ->
     0 <= n <= fileSizePackets bf ->
     exists counter,
       result_of (run bf inputs (SendFlashData_04 n)) = Ok tt /\
       state_of (run bf inputs (SendFlashData_04 n)) = SendFlashData_04 counter /\
       counter = Z.min (n + len inputs) (fileSizePackets bf) /\
       0 <= counter <= fileSizePackets bf /\
       writes (trace_of (run bf inputs (SendFlashData_04 n)))
       = slice (filePackets bf) n counter) /\
  (forall inputs more : list Input,
     Forall (fun input => terminal input = false) (inputs ++ more) ->
     len inputs = fileSizePackets bf ->
     state_of (run bf inputs (SendFlashData_04 0))
     = SendFlashData_04 (fileSizePackets bf) /\
     state_of (run bf (inputs ++ more) (SendFlashData_04 0))
     = SendFlashData_04 (fileSizePackets bf) /\
     writes (trace_of (run bf (inputs ++ more) (SendFlashData_04 0)))
     = writes (trace_of (run bf inputs (SendFlashData_04 0)))).
Proof.
  intros Hav. pose proof Hav as [Hc0 Hc1]. split; [|split].
  - intros input n Hn.
    destruct (getitem_in_range (filePackets bf) n) as (packet & Hg & _); [lia|].
    exists packet. rewrite (stateActions_send bf input n packet) by (lia || assumption).
    unfold result_of, writes, trace_of, state_of. cbn [fst snd].
    fold (writes (progress_report (n + 1))). rewrite writes_progress_report. auto.
  - intros inputs n Hall Hn.
    pose proof (run_streaming bf inputs Hav Hall n Hn) as H.
    cbv zeta in H. pose proof (len_nonneg inputs) as Hl.
    destruct H as (Hr & Hs & Hw).
    exists (Z.min (n + len inputs) (fileSizePackets bf)).
    repeat split; try assumption; lia.
  - intros inputs more Hall Hlen.
    pose proof (len_nonneg more) as Hm.
    assert (Forall (fun input => terminal input = false) inputs) as Hall1
      by (apply Forall_app in Hall; tauto).
    pose proof (run_streaming bf inputs Hav Hall1 0 ltac:(lia)) as H1.
    pose proof (run_streaming bf (inputs ++ more) Hav Hall 0 ltac:(lia)) as H2.
    cbv zeta in H1, H2. rewrite len_app in H2.
    destruct H1 as (_ & Hs1 & Hw1). destruct H2 as (_ & Hs2 & Hw2).
    rewrite Z.min_r in Hs1, Hw1 by lia. rewrite Z.min_r in Hs2, Hw2 by lia.
    rewrite Hw1, Hw2. auto.
Qed.

(** The sample image streamed for 131 ticks without input: all 130 packets
    have gone out, in order, and the counter rests at 130. *)
Lemma SendFlashData_04_streaming_witness :
  exists counter,
    state_of (run (sample_image x01 x02) (repeat None 131) (SendFlashData_04 0))
    = SendFlashData_04 counter /\
    counter = 130 /\
    writes (trace_of (run (sample_image x01 x02) (repeat None 131) (SendFlashData_04 0)))
    = slice (filePackets (sample_image x01 x02)) 0 counter.
Proof.
  destruct (SendFlashData_04_streaming (sample_image x01 x02)
              (loadBinary_packets_available _ _))
    as (_ & Hrun & _).
  destruct (Hrun (repeat None 131) 0) as (counter & _ & Hs & Hc & _ & Hw).
  - apply Forall_forall. intros input Hin. apply repeat_spec in Hin. now subst.
  - vm_compute. split; discriminate.
  - exists counter. split; [exact Hs|]. split; [|exact Hw].
    rewrite Hc. vm_compute. reflexivity.
Defined.

(** Reading bytes 1, 2 and 3 of a four-byte frame. *)
Lemma input_at_1 {S} (b0 b1 b2 b3 : byte) (s : S) :
  input_at (Some [b0; b1; b2; b3]) 1 s = ([], s, Ok (byte_to_Z b1)).
Proof. reflexivity. Qed.

Lemma input_at_2 {S} (b0 b1 b2 b3 : byte) (s : S) :
  input_at (Some [b0; b1; b2; b3]) 2 s = ([], s, Ok (byte_to_Z b2)).
Proof. reflexivity. Qed.

Lemma input_at_3 {S} (b0 b1 b2 b3 : byte) (s : S) :
  input_at (Some [b0; b1; b2; b3]) 3 s = ([], s, Ok (byte_to_Z b3)).
Proof. reflexivity. Qed.

(** One step of a monadic run: expose the next call, rewrite it with what is
    known about it, and reduce the match on its result. *)
Ltac eff_step :=
  unfold bind, gets, print, emit, ret, put, lift; cbv beta iota;
  rewrite ?input_at_1, ?input_at_2, ?input_at_3, ?writeSerialBuffer_hex;
  cbv beta iota.

Lemma stateTransition_0x84 (bf : BinaryFile) (n : Z) (b1 b2 b3 : byte) :
  stateTransition bf (Some [x84; b1; b2; b3]) (SendFlashData_04 n)
  = ([Print [PyStr "--> Transmission finished - Transmitted "; PyInt n;
             PyStr " of "; PyInt (fileSizePackets bf); PyStr " <--"];
      crc_diagnostic bf (byte_to_Z b2) (byte_to_Z b3)],
     SendFlashData_04 n, Ok (Some FlashDone_99)).
Proof.
  unfold stateTransition, SendFlashData_04_stateTransition, crc_diagnostic.
  rewrite has_opcode_cons.
  replace (byte_to_Z x84 =? 0x84) with true by reflexivity.
  eff_step.
  destruct (byte_to_Z b2 =? CRC_MSB bf); [eff_step|];
    [destruct (byte_to_Z b3 =? CRC_LSB bf)|]; reflexivity.
Qed.

Lemma stateTransition_0x8F (bf : BinaryFile) (n : Z) (rest : list byte) :
  stateTransition bf (Some (x8f :: rest)) (SendFlashData_04 n)
  = ([Print [PyStr "--> Error! <--"]], SendFlashData_04 n, Ok (Some Error_98)).
Proof.
  unfold stateTransition, SendFlashData_04_stateTransition.
  rewrite !has_opcode_cons. reflexivity.
Qed.

(** C10. [execute] runs [stateActions] first and [stateTransition] on what it
    leaves: the events of a tick are those of the action followed by those of
    the transition, and an action that raises ends the tick before any
    transition.  So a terminal frame (0x84 or 0x8F) that reaches
    SendFlashData_04 while the counter is below fileSizePackets has the
    packet at the counter written first, and only that one, in the tick that
    moves the machine to FlashDone_99 or Error_98. *)
Theorem execute_actions_before_transition (bf : BinaryFile) :
  (forall (input : Input) (st : State),
     match result_of (stateActions bf input st) with
     | Ok _ =>
         trace_of (execute bf input st)
         = trace_of (stateActions bf input st)
           ++ trace_of (stateTransition bf input (state_of (stateActions bf input st)))
     | Raise e =>
         execute bf input st
         = (trace_of (stateActions bf input st),
            state_of (stateActions bf input st), Raise e)
     end) /\
  (forall (n : Z) (b1 b2 b3 : byte),
     packets_available bf -> 0 <= n < fileSizePackets bf ->
     exists packet rest84 rest8F,
       getitem (filePackets bf) n = Ok packet /\
       execute bf (Some [x84; b1; b2; b3]) (SendFlashData_04 n)
       = (Write packet :: rest84, FlashDone_99, Ok tt) /\
       execute bf (Some [x8f; b1; b2; b3]) (SendFlashData_04 n)
       = (Write packet :: rest8F, Error_98, Ok tt) /\
       writes rest84 = [] /\ writes rest8F = []).
Proof.
  split.
  - intros input st. unfold execute, bind.
    destruct (stateActions bf input st) as [[t1 s1] [[]|e]];
      unfold result_of, trace_of, state_of; cbn [fst snd]; [|reflexivity].
    destruct (stateTransition bf input s1) as [[t2 s2] [[nxt|]|e]];
      unfold put, ret; cbn [fst snd]; rewrite ?app_nil_r; reflexivity.
  - intros n b1 b2 b3 Hav Hn.
    destruct (getitem_in_range (filePackets bf) n) as (packet & Hg & _);
      [unfold packets_available in Hav; lia|].
    exists packet.
    exists (progress_report (n + 1)
            ++ [Print [PyStr "--> Transmission finished - Transmitted "; PyInt (n + 1);
                       PyStr " of "; PyInt (fileSizePackets bf); PyStr " <--"];
                crc_diagnostic bf (byte_to_Z b2) (byte_to_Z b3)]).
    exists (progress_report (n + 1) ++ [Print [PyStr "--> Error! <--"]]).
    split; [exact Hg|].
    unfold execute, bind.
    rewrite !(stateActions_send bf _ n packet) by (lia || assumption).
    rewrite stateTransition_0x84, stateTransition_0x8F.
    unfold put. cbn [app]. rewrite ?app_nil_r, !writes_app, !writes_progress_report.
    repeat split. unfold crc_diagnostic.
    destruct ((byte_to_Z b2 =? CRC_MSB bf) && (byte_to_Z b3 =? CRC_LSB bf));
      reflexivity.
Qed.

(** On the sample image, a 0x84 frame that arrives with the counter at 0
    still has packet 0 written before the machine reaches FlashDone_99. *)
Lemma execute_actions_before_transition_witness :
  exists packet rest,
    getitem (filePackets (sample_image x01 x02)) 0 = Ok packet /\
    execute (sample_image x01 x02) (Some [x84; x00; xee; x38]) (SendFlashData_04 0)
    = (Write packet :: rest, FlashDone_99, Ok tt) /\
    writes rest = [].
Proof.
  destruct (proj2 (execute_actions_before_transition (sample_image x01 x02))
              0 x00 xee x38 (loadBinary_packets_available _ _))
    as (packet & rest84 & rest8F & Hg & H84 & _ & Hw & _).
  - vm_compute. split; [discriminate | reflexivity].
  - exists packet, rest84. auto.
Defined.

(** C5. In SendFlashData_04 a four-byte frame with opcode 0x84 makes the
    transition print the transmission summary and then one diagnostic, chosen
    by comparing bytes 2 and 3 of the frame with CRC_MSB and CRC_LSB of the
    image, and return FlashDone_99 whether they match or not; the whole tick
    therefore ends in FlashDone_99 without an exception. *)
Theorem SendFlashData_04_checksum_report (bf : BinaryFile) (n : Z) (b1 b2 b3 : byte) :
  stateTransition bf (Some [x84; b1; b2; b3]) (SendFlashData_04 n)
  = ([Print [PyStr "--> Transmission finished - Transmitted "; PyInt n;
             PyStr " of "; PyInt (fileSizePackets bf); PyStr " <--"];
      if (byte_to_Z b2 =? CRC_MSB bf) && (byte_to_Z b3 =? CRC_LSB bf)
      then Print [PyStr "--> CRC matched - Data integrity ensured!"]
      else Print [PyStr "--> CRC not matched - expected - Data integrity not ensured!"]],
     SendFlashData_04 n, Ok (Some FlashDone_99)) /\
  (packets_available bf -> 0 <= n ->
   result_of (execute bf (Some [x84; b1; b2; b3]) (SendFlashData_04 n)) = Ok tt /\
   state_of (execute bf (Some [x84; b1; b2; b3]) (SendFlashData_04 n)) = FlashDone_99 /\
   In (crc_diagnostic bf (byte_to_Z b2) (byte_to_Z b3))
      (trace_of (execute bf (Some [x84; b1; b2; b3]) (SendFlashData_04 n)))).
Proof.
  split; [apply stateTransition_0x84|].
  intros Hav Hn. unfold execute, bind.
  destruct (Z.lt_ge_cases n (fileSizePackets bf)) as [Hlt|Hge].
  - destruct (getitem_in_range (filePackets bf) n) as (packet & Hg & _);
      [unfold packets_available in Hav; lia|].
    rewrite (stateActions_send bf _ n packet) by (lia || assumption).
    rewrite stateTransition_0x84. unfold put, result_of, state_of, trace_of.
    cbn [fst snd]. repeat split.
    rewrite app_nil_r. apply in_or_app. right. right. left. reflexivity.
  - rewrite stateActions_drained by lia.
    rewrite stateTransition_0x84. unfold put, result_of, state_of, trace_of.
    cbn [fst snd]. repeat split.
    rewrite app_nil_r. apply in_or_app. right. right. left. reflexivity.
Qed.

(** The sample image's checksum is 0x8F8F; a frame that reports 0xEE38
    instead gets the mismatch diagnostic and FlashDone_99 all the same. *)
Lemma SendFlashData_04_checksum_report_witness :
  state_of (execute (sample_image x01 x02) (Some [x84; x00; xee; x38])
              (SendFlashData_04 130)) = FlashDone_99 /\
  In (Print [PyStr "--> CRC not matched - expected - Data integrity not ensured!"])
     (trace_of (execute (sample_image x01 x02) (Some [x84; x00; xee; x38])
                  (SendFlashData_04 130))).
Proof.
  destruct (proj2 (SendFlashData_04_checksum_report (sample_image x01 x02)
                     130 x00 xee x38)
              (loadBinary_packets_available _ _) ltac:(lia))
    as (_ & Hs & Hin).
  split; [exact Hs | exact Hin].
Defined.

(** ** Frames no transition asks for *)

(** C8. For every state and every four-byte frame whose opcode is none of
    those the state's transition tests, one tick ends without an exception
    and leaves the machine in the same state: the same object for the states
    without a counter, and SendFlashData_04 still (it goes on streaming) for
    the streaming state. *)
Theorem unexpected_opcode_stays (bf : BinaryFile) (st : State) (b0 b1 b2 b3 : byte) :
  packets_available bf -> 0 <= packetNum st ->
  transition_expects st (byte_to_Z b0) = false ->
  result_of (execute bf (Some [b0; b1; b2; b3]) st) = Ok tt /\
  kind (state_of (execute bf (Some [b0; b1; b2; b3]) st)) = kind st /\
  (kind st <> KSendFlashData ->
   state_of (execute bf (Some [b0; b1; b2; b3]) st) = st).
Proof.
  intros Hav Hn Hex. destruct st as [| | |n| |]; cbn [transition_expects] in Hex;
    try discriminate.
  - unfold_machine. unfold bind, ret. rewrite has_opcode_cons, Hex. cbn. auto.
  - apply orb_false_iff in Hex as [H8E H81].
    unfold_machine. unfold bind, ret. rewrite !has_opcode_cons, H8E, H81. cbn. auto.
  - unfold_machine. unfold bind, ret, print, emit. rewrite !has_opcode_cons, Hex.
    destruct (byte_to_Z b0 =? 0x81); cbn; auto.
  - cbn [packetNum] in Hn.
    assert (terminal (Some [b0; b1; b2; b3]) = false) as Ht
      by (unfold terminal; rewrite !has_opcode_cons; exact Hex).
    destruct (Z.lt_ge_cases n (fileSizePackets bf)) as [Hlt|Hge].
    + destruct (getitem_in_range (filePackets bf) n) as (packet & Hg & _);
        [unfold packets_available in Hav; lia|].
      rewrite execute_streaming;
        rewrite ?(stateActions_send bf _ n packet) by (lia || assumption);
        try reflexivity; try assumption.
      cbn. split; [reflexivity|]. split; [reflexivity|]. intros H. now elim H.
    + rewrite execute_streaming;
        rewrite ?stateActions_drained by lia; try reflexivity; try assumption.
      cbn. split; [reflexivity|]. split; [reflexivity|]. intros H. now elim H.
  - unfold_machine. unfold bind, ret. rewrite has_opcode_cons, Hex. cbn. auto.
Qed.

(** The informational frame 0x83 met in FlashDone_99. *)
Lemma unexpected_opcode_stays_witness :
  result_of (execute (sample_image x01 x02) (Some [x83; x06; x00; xff]) FlashDone_99)
  = Ok tt /\
  state_of (execute (sample_image x01 x02) (Some [x83; x06; x00; xff]) FlashDone_99)
  = FlashDone_99.
Proof.
  destruct (unexpected_opcode_stays (sample_image x01 x02) FlashDone_99
              x83 x06 x00 xff (loadBinary_packets_available _ _)
              ltac:(simpl; lia) ltac:(reflexivity))
    as (Hr & _ & Hs).
  split; [exact Hr | apply Hs; discriminate].
Defined.

(** ** Erase progress *)

Lemma byte_to_of_Z (z : Z) : 0 <= z < 256 -> byte_to_Z (byte_of_Z z) = z.
Proof.
  intros Hz. unfold byte_to_Z, byte_of_Z.
  pose proof (Byte.to_of_N_option_map (Z.to_N z)) as H.
  destruct (Byte.of_N (Z.to_N z)) as [b|]; cbn [option_map] in H.
  - destruct (N.leb_spec (Z.to_N z) 255) as [_|Hgt]; [|discriminate].
    injection H as ->. lia.
  - destruct (N.leb_spec (Z.to_N z) 255) as [Hle|Hgt]; [discriminate|lia].
Qed.

Lemma byte_to_Z_inj (a b : byte) : byte_to_Z a = byte_to_Z b -> a = b.
Proof.
  intros H. rewrite <- (byte_of_to_Z a), <- (byte_of_to_Z b), H. reflexivity.
Qed.

Lemma to_bytes_3 (z : Z) :
  0 <= z < 2 ^ 24 ->
  to_bytes z 3
  = Ok [byte_of_Z (z / 65536 mod 256); byte_of_Z (z / 256 mod 256);
        byte_of_Z (z mod 256)].
Proof.
  intros Hz. unfold to_bytes.
  destruct (Z.ltb_spec z 0); [lia|].
  destruct (Z.leb_spec (256 ^ Z.of_nat 3) z) as [Hle|_];
    [change (256 ^ Z.of_nat 3) with (2 ^ 24) in Hle; lia|].
  cbn [orb be_bytes].
  change (256 ^ Z.of_nat 2) with 65536. change (256 ^ Z.of_nat 1) with 256.
  change (256 ^ Z.of_nat 0) with 1. rewrite Z.div_1_r. reflexivity.
Qed.

(** C4, as stated, fails on the last byte of the frame: with the erase-done
    value 0x01 in byte 3 and 0x00 in byte 2 the machine only logs the sector
    and stays, and with 0x01 in byte 2 and the filler 0xFF in byte 3 (the
    frame of the recorded session) it answers 0xC1 and moves on. *)
Lemma CheckHeaderAndEraseMem_02_byte3_counterexample :
  execute (sample_image x01 x02) (Some [x81; x0a; x00; x01]) CheckHeaderAndEraseMem_02
  = ([Print [PyStr "--> Erasing flash memory - Sector "; PyInt 10; PyStr " erased! <--"]],
     CheckHeaderAndEraseMem_02, Ok tt) /\
  state_of (execute (sample_image x01 x02) (Some [x81; x0a; x01; xff])
              CheckHeaderAndEraseMem_02) = Prepare2Flash_03 /\
  writes (trace_of (execute (sample_image x01 x02) (Some [x81; x0a; x01; xff])
                      CheckHeaderAndEraseMem_02)) = [[xc1; x00; x00; x82]].
Proof. repeat split. Qed.

(** C4, amended. In CheckHeaderAndEraseMem_02 a frame 0x81 whose byte 2 (the
    done flag, yy of `0x81 xx yy FF`) is 0x01 has the sector of byte 1
    logged, then the completion message, then 0xC1 followed by
    fileSizePackets as three big-endian bytes written to the port (a count
    below 2^24 fits), and the machine moves to Prepare2Flash_03; a frame 0x81
    whose byte 2 is not 0x01 only has the sector of byte 1 logged and leaves
    the state as it is.  Byte 3 is not looked at. *)
Theorem CheckHeaderAndEraseMem_02_erase_progress
    (bf : BinaryFile) (sector flag b3 : byte) :
  0 <= fileSizePackets bf < 2 ^ 24 ->
  let sector_log :=
    Print [PyStr "--> Erasing flash memory - Sector "; PyInt (byte_to_Z sector);
           PyStr " erased! <--"] in
  (flag = x01 ->
   exists p2 p1 p0 : byte,
     byte_to_Z p2 * 65536 + byte_to_Z p1 * 256 + byte_to_Z p0 = fileSizePackets bf /\
     execute bf (Some [x81; sector; flag; b3]) CheckHeaderAndEraseMem_02
     = ([sector_log;
         Print [PyStr "--> Erasing flash memory - All sectors erased succesfully! <--"];
         Write [xc1; p2; p1; p0];
         Print [PyStr "     TX-> "; PyStr (hex [xc1; p2; p1; p0])]],
        Prepare2Flash_03, Ok tt)) /\
  (flag <> x01 ->
   execute bf (Some [x81; sector; flag; b3]) CheckHeaderAndEraseMem_02
   = ([sector_log], CheckHeaderAndEraseMem_02, Ok tt)).
Proof.
  intros Hn. cbv zeta. split.
  - intros ->. set (z := fileSizePackets bf) in *.
    exists (byte_of_Z (z / 65536 mod 256)), (byte_of_Z (z / 256 mod 256)),
           (byte_of_Z (z mod 256)).
    split.
    + rewrite !byte_to_of_Z by (apply Z.mod_pos_bound; lia).
      pose proof (Z.div_mod z 256 ltac:(lia)).
      pose proof (Z.div_mod (z / 256) 256 ltac:(lia)).
      assert (z / 65536 = z / 256 / 256) as E
        by (rewrite Z.div_div by lia; reflexivity).
      assert (0 <= z / 65536 < 256) as Hhi
        by (split; [apply Z.div_pos; lia | apply Z.div_lt_upper_bound; lia]).
      rewrite (Z.mod_small (z / 65536)) by lia. lia.
    + unfold_machine. rewrite !has_opcode_cons.
      replace (byte_to_Z x81 =? 0x81) with true by reflexivity.
      replace (byte_to_Z x81 =? 0x8E) with false by reflexivity.
      eff_step.
      replace (byte_to_Z x01 =? 0x01) with true by reflexivity.
      fold z. rewrite (to_bytes_3 z Hn). eff_step. reflexivity.
  - intros Hflag.
    assert ((byte_to_Z flag =? 0x01) = false) as Hf.
    { apply Z.eqb_neq. intros E. apply Hflag. apply byte_to_Z_inj. exact E. }
    unfold_machine. rewrite !has_opcode_cons.
    replace (byte_to_Z x81 =? 0x81) with true by reflexivity.
    replace (byte_to_Z x81 =? 0x8E) with false by reflexivity.
    eff_step. rewrite Hf. reflexivity.
Qed.

(** The frame `81 0a 01 ff` of the recorded session, on the sample image of
    130 packets. *)
Lemma CheckHeaderAndEraseMem_02_erase_progress_witness :
  exists p2 p1 p0 : byte,
    byte_to_Z p2 * 65536 + byte_to_Z p1 * 256 + byte_to_Z p0 = 130 /\
    execute (sample_image x01 x02) (Some [x81; x0a; x01; xff]) CheckHeaderAndEraseMem_02
    = ([Print [PyStr "--> Erasing flash memory - Sector "; PyInt 10; PyStr " erased! <--"];
        Print [PyStr "--> Erasing flash memory - All sectors erased succesfully! <--"];
        Write [xc1; p2; p1; p0];
        Print [PyStr "     TX-> "; PyStr (hex [xc1; p2; p1; p0])]],
       Prepare2Flash_03, Ok tt).
Proof.
  apply (proj1 (CheckHeaderAndEraseMem_02_erase_progress (sample_image x01 x02)
                  x0a x01 xff ltac:(vm_compute; split; [discriminate|reflexivity]))).
  reflexivity.
Defined.

(** ** The version reply *)

Lemma to_bytes_1 (z : Z) : 0 <= z < 256 -> to_bytes z 1 = Ok [byte_of_Z z].
Proof.
  intros Hz. unfold to_bytes.
  destruct (Z.ltb_spec z 0); [lia|].
  destruct (Z.leb_spec (256 ^ Z.of_nat 1) z) as [Hle|_];
    [change (256 ^ Z.of_nat 1) with 256 in Hle; lia|].
  cbn [orb be_bytes]. change (256 ^ Z.of_nat 0) with 1.
  rewrite Z.div_1_r, Z.mod_small by lia. reflexivity.
Qed.

(** What Idle_01 answers to 0x80: the bytes are [int(SW_MAJOR)] and
    [int(SW_MINOR)], that is, the hex digits of packets 0x80 and 0x81 read as
    decimal numerals. *)
Lemma Idle_01_reply (bf : BinaryFile) (rest : list byte) (major minor : Z) :
  py_int (SW_MAJOR bf) = Ok major -> 0 <= major < 256 ->
  py_int (SW_MINOR bf) = Ok minor -> 0 <= minor < 256 ->
  execute bf (Some (x80 :: rest)) Idle_01
  = ([Print [PyStr "--> Device found! Starting communication to flash SW + sending SW version to MCU <--"];
      Write [xc0; byte_of_Z major; byte_of_Z minor; xff];
      Print [PyStr "     TX-> "; PyStr (hex [xc0; byte_of_Z major; byte_of_Z minor; xff])]],
     CheckHeaderAndEraseMem_02, Ok tt).
Proof.
  intros Hmj Hmjr Hmn Hmnr. unfold_machine. rewrite !has_opcode_cons.
  replace (byte_to_Z x80 =? 0x80) with true by reflexivity.
  eff_step. rewrite Hmj. cbv beta iota. rewrite (to_bytes_1 major Hmjr).
  cbv beta iota. rewrite Hmn. cbv beta iota. rewrite (to_bytes_1 minor Hmnr).
  cbv beta iota zeta. cbn [app]. rewrite writeSerialBuffer_hex. reflexivity.
Qed.

(** The reply of the recorded session, `c00102ff`, for version words 1
    and 2. *)
Lemma Idle_01_reply_recorded :
  execute (sample_image x01 x02) (Some [x80; xff; xff; xff]) Idle_01
  = ([Print [PyStr "--> Device found! Starting communication to flash SW + sending SW version to MCU <--"];
      Write [xc0; x01; x02; xff];
      Print [PyStr "     TX-> "; PyStr "c00102ff"]],
     CheckHeaderAndEraseMem_02, Ok tt).
Proof. reflexivity. Qed.

(** C3 at a failing input.  The file carries 0x10 at offset 0x200 and 0x02 at
    0x204 and loads without error; [SW_MAJOR] is the text "00000010", which
    [int] reads as ten, so the reply to 0x80 carries 0x0A where the image
    embeds 0x10.  With 0x0A at offset 0x200 the text "0000000a" is no decimal
    numeral: [int] raises ValueError, nothing is written and the machine is
    still in Idle_01 when the exception leaves [execute]. *)
Theorem Idle_01_version_hex_read_as_decimal :
  getitem (sample_firmware x10 x02) 0x200 = Ok x10 /\
  getitem (sample_firmware x10 x02) 0x204 = Ok x02 /\
  result_of (loadBinary (sample_firmware x10 x02) BinaryFile_init) = Ok tt /\
  SW_MAJOR (sample_image x10 x02) = PyStr "00000010" /\
  execute (sample_image x10 x02) (Some [x80; xff; xff; xff]) Idle_01
  = ([Print [PyStr "--> Device found! Starting communication to flash SW + sending SW version to MCU <--"];
      Write [xc0; x0a; x02; xff];
      Print [PyStr "     TX-> "; PyStr "c00a02ff"]],
     CheckHeaderAndEraseMem_02, Ok tt) /\
  result_of (loadBinary (sample_firmware x0a x02) BinaryFile_init) = Ok tt /\
  execute (sample_image x0a x02) (Some [x80; xff; xff; xff]) Idle_01
  = ([Print [PyStr "--> Device found! Starting communication to flash SW + sending SW version to MCU <--"]],
     Idle_01, Raise ValueError).
Proof. repeat split. Qed.

(** ** Short reads *)

(** C7 at failing inputs.  A read that returns one byte is handed to the
    machine as it is, and the guard of every state accepts it as soon as it
    is not empty.  In CheckHeaderAndEraseMem_02 the byte 0x81 makes
    [stateActions] index [input[1]]: IndexError, where no input does
    nothing.  In Idle_01 the byte 0x80 alone triggers the version reply and
    the transition.  In SendFlashData_04 a two-byte read `84 00` raises
    IndexError at [input[2]], after the summary line. *)
Theorem short_read_is_dispatched :
  readSerialBuffer 1 [x81]
  = ([Print [PyStr "     RX-> "; PyStr "81"]], [], Ok (Some [x81])) /\
  execute (sample_image x01 x02) (Some [x81]) CheckHeaderAndEraseMem_02
  = ([], CheckHeaderAndEraseMem_02, Raise IndexError) /\
  execute (sample_image x01 x02) None CheckHeaderAndEraseMem_02
  = ([], CheckHeaderAndEraseMem_02, Ok tt) /\
  main_iteration (sample_image x01 x02) [x81] (CheckHeaderAndEraseMem_02, 0)
  = ([Print [PyStr "     RX-> "; PyStr "81"]], (CheckHeaderAndEraseMem_02, 0),
     Raise IndexError) /\
  execute (sample_image x01 x02) (Some [x80]) Idle_01
  = ([Print [PyStr "--> Device found! Starting communication to flash SW + sending SW version to MCU <--"];
      Write [xc0; x01; x02; xff];
      Print [PyStr "     TX-> "; PyStr "c00102ff"]],
     CheckHeaderAndEraseMem_02, Ok tt) /\
  execute (sample_image x01 x02) None Idle_01 = ([], Idle_01, Ok tt) /\
  execute (sample_image x01 x02) (Some [x84; x00]) (SendFlashData_04 130)
  = ([Print [PyStr "--> Transmission finished - Transmitted "; PyInt 130;
             PyStr " of "; PyInt 130; PyStr " <--"]],
     SendFlashData_04 130, Raise IndexError).
Proof. repeat split. Qed.

(** The guard does cover the empty read: in every state it is treated as no
    input is. *)
Lemma empty_read_like_None (bf : BinaryFile) (st : State) :
  execute bf (Some []) st = execute bf None st.
Proof.
  destruct st; unfold_machine; unfold bind;
    rewrite ?has_opcode_empty, ?has_opcode_None; reflexivity.
Qed.

(** ** Determinism of the load *)

(** What [loadBinary] computes from given file bytes does not depend on
    what the object held before, its packet list aside: on two objects with
    equal packet lists (two fresh ones have the empty list), loads of the
    same bytes end alike (both return or both raise the same exception),
    print the same lines and leave the same packets and sizes; and when they
    return, the two images are equal in every field. *)
Lemma loadBinary_same_prior_packets (contents : list byte) (self1 self2 : BinaryFile) :
  filePackets self1 = filePackets self2 ->
  result_of (loadBinary contents self1) = result_of (loadBinary contents self2) /\
  trace_of (loadBinary contents self1) = trace_of (loadBinary contents self2) /\
  filePackets (state_of (loadBinary contents self1))
  = filePackets (state_of (loadBinary contents self2)) /\
  fileSizePackets (state_of (loadBinary contents self1))
  = fileSizePackets (state_of (loadBinary contents self2)) /\
  (result_of (loadBinary contents self1) = Ok tt ->
   state_of (loadBinary contents self1) = state_of (loadBinary contents self2)).
Proof.
  intros Hp.
  unfold loadBinary, bind, modify, gets, lift, print, emit, result_of, trace_of, state_of.
  cbn [fst snd set_fileData set_fileSizeBytes set_fileSizePackets set_filePackets
       fileData fileSizeBytes fileSizePackets filePackets].
  rewrite Hp.
  repeat match goal with
  | |- context [match getitem ?l ?i with _ => _ end] => destruct (getitem l i)
  end; cbn; repeat split; try reflexivity; intros; discriminate.
Qed.

(** Two images with different leftovers in their scalar fields, loaded from
    the same 520 bytes, are equal afterwards. *)
Lemma loadBinary_same_prior_packets_example :
  state_of (loadBinary (sample_firmware x01 x02) BinaryFile_init)
  = state_of (loadBinary (sample_firmware x01 x02)
                (mkBinaryFile [x07] 9 9 [] (PyStr "stale") (PyInt 5) 1 2)).
Proof.
  apply (loadBinary_same_prior_packets (sample_firmware x01 x02) BinaryFile_init
           (mkBinaryFile [x07] 9 9 [] (PyStr "stale") (PyInt 5) 1 2));
    reflexivity.
Qed.

(** The packet list is the one thing a load inherits: [loadBinary] appends to
    it and never clears it, so a second load into the same object leaves the
    packets twice, after whatever was there. *)
Lemma loadBinary_reload_appends (contents : list byte) (self : BinaryFile) :
  let packets := map (packet_at contents)
                     (range (ceil_div (len contents) BYTES_PER_PACKET)) in
  filePackets (state_of (loadBinary contents (state_of (loadBinary contents self))))
  = filePackets self ++ packets ++ packets.
Proof.
  cbv zeta.
  destruct (loadBinary_sizes contents (state_of (loadBinary contents self)))
    as (_ & _ & _ & Hp2).
  destruct (loadBinary_sizes contents self) as (_ & _ & _ & Hp1).
  rewrite Hp2, Hp1, <- app_assoc. reflexivity.
Qed.



(** The checksum is a 16-bit value, and the two fields are its high and low
    bytes. *)
Lemma crc_shift_range (crc : Z) : 0 <= crc_shift crc < 65536.
Proof.
  unfold crc_shift. change 0xFFFF with (Z.ones 16).
  destruct (Z.testbit crc 15); rewrite Z.land_ones by lia;
    apply Z.mod_pos_bound; lia.
Qed.

Lemma crc_update_byte_range (crc : Z) (b : byte) : 0 <= crc_update_byte crc b < 65536.
Proof. unfold crc_update_byte. cbn [Nat.iter nat_rect]. apply crc_shift_range. Qed.

Lemma crc_ccitt_false_range (data : list byte) : 0 <= crc_ccitt_false data < 65536.
Proof.
  unfold crc_ccitt_false.
  assert (0 <= 0xFFFF < 65536) as H by lia. revert H. generalize 0xFFFF.
  induction data as [|b data IH]; intros crc Hcrc; cbn [fold_left]; [exact Hcrc|].
  apply IH, crc_update_byte_range.
Qed.

Lemma loadBinary_checksum16 (contents : list byte) (self : BinaryFile) :
  result_of (loadBinary contents self) = Ok tt ->
  let image := state_of (loadBinary contents self) in
  CRC_MSB image = crc_ccitt_false contents / 256 /\
  CRC_LSB image = crc_ccitt_false contents mod 256.
Proof.
  pose proof (crc_ccitt_false_range contents) as Hr.
  unfold loadBinary, bind, modify, gets, lift, print, emit, result_of, state_of.
  cbn [fst snd set_fileData set_fileSizeBytes set_fileSizePackets set_filePackets
       fileData fileSizeBytes fileSizePackets filePackets].
  repeat match goal with
  | |- context [match getitem ?l ?i with _ => _ end] => destruct (getitem l i)
  end; cbn [fst snd]; try discriminate.
  intros _. cbn [CRC_MSB CRC_LSB set_CRC_MSB set_CRC_LSB set_SW_MAJOR set_SW_MINOR].
  split.
  - rewrite Z.shiftr_land. change (Z.shiftr 0xFF00 8) with (Z.ones 8).
    rewrite Z.land_ones, Z.shiftr_div_pow2 by lia.
    change (2 ^ 8) with 256. apply Z.mod_small.
    split; [apply Z.div_pos; lia | apply Z.div_lt_upper_bound; lia].
  - change 0x00FF with (Z.ones 8). rewrite Z.land_ones by lia. reflexivity.
Qed.

(** * Further properties of the notebook *)

(** ** The serial port *)

(** X1. [writeSerialBuffer] given the hex text of any bytes never raises,
    hands exactly those bytes to the port, once, and echoes the text on one
    line when [echo] is 1 and not at all otherwise. *)
Theorem writeSerialBuffer_round_trip {S} (bs : list byte) (echo : Z) (s : S) :
  result_of (writeSerialBuffer (hex bs) echo s) = Ok tt /\
  state_of (writeSerialBuffer (hex bs) echo s) = s /\
  writes (trace_of (writeSerialBuffer (hex bs) echo s)) = [bs] /\
  (echo <> 1 -> trace_of (writeSerialBuffer (hex bs) echo s) = [Write bs]) /\
  (echo = 1 ->
   trace_of (writeSerialBuffer (hex bs) echo s)
   = [Write bs; Print [PyStr "     TX-> "; PyStr (hex bs)]]).
Proof.
  rewrite writeSerialBuffer_hex. unfold result_of, state_of, trace_of. cbn [fst snd].
  repeat split.
  - destruct (echo =? 1); reflexivity.
  - intros He. apply Z.eqb_neq in He. rewrite He. reflexivity.
  - intros ->. reflexivity.
Qed.

Lemma writeSerialBuffer_round_trip_witness :
  trace_of (writeSerialBuffer (hex [xc0; x01; x02; xff]) 0 tt)
  = [Write [xc0; x01; x02; xff]].
Proof.
  apply (proj1 (proj2 (proj2 (proj2
           (writeSerialBuffer_round_trip [xc0; x01; x02; xff] 0 tt))))).
  discriminate.
Defined.

Lemma readSerialBuffer_cases (echo : Z) (in_buffer : list byte) :
  (in_buffer = [] -> readSerialBuffer echo in_buffer = ([], [], Ok None)) /\
  (in_buffer <> [] ->
   readSerialBuffer echo in_buffer
   = ((if echo =? 1
       then [Print [PyStr "     RX-> "; PyStr (hex (firstn 4 in_buffer))]]
       else []),
      [], Ok (Some (firstn 4 in_buffer)))).
Proof.
  split.
  - intros ->. reflexivity.
  - intros Hne. destruct in_buffer as [|b rest]; [now elim Hne|].
    unfold readSerialBuffer. unfold bind at 1. unfold gets at 1. cbv beta iota.
    replace (len (b :: rest) >? 0) with true
      by (symmetry; apply Z.gtb_lt; unfold len; cbn [List.length]; lia).
    unfold bind, gets, put, print, emit, ret. cbv beta iota.
    destruct (echo =? 1); reflexivity.
Qed.

(** X2. [readSerialBuffer] returns None exactly when nothing is waiting, and
    then prints nothing.  Otherwise it returns the first bytes that are
    waiting, at least one and at most four (four when that many are there),
    and leaves the input buffer empty: what lay behind them is dropped. *)
Theorem readSerialBuffer_frames (echo : Z) (in_buffer : list byte) :
  (in_buffer = [] -> readSerialBuffer echo in_buffer = ([], [], Ok None)) /\
  (in_buffer <> [] ->
   result_of (readSerialBuffer echo in_buffer) = Ok (Some (firstn 4 in_buffer)) /\
   state_of (readSerialBuffer echo in_buffer) = [] /\
   1 <= len (firstn 4 in_buffer) <= 4 /\
   (4 <= len in_buffer -> len (firstn 4 in_buffer) = 4) /\
   writes (trace_of (readSerialBuffer echo in_buffer)) = []).
Proof.
  split.
  - intros ->. reflexivity.
  - intros Hne. destruct in_buffer as [|b rest]; [now elim Hne|].
    unfold readSerialBuffer. unfold bind at 1. unfold gets at 1. cbv beta iota.
    replace (len (b :: rest) >? 0) with true
      by (symmetry; apply Z.gtb_lt; unfold len; cbn [List.length]; lia).
    unfold bind, gets, put, print, emit, ret, result_of, state_of, trace_of.
    cbv beta iota.
    assert (len (firstn 4 (b :: rest)) = Z.min 4 (len (b :: rest))) as Hl
      by (unfold len; rewrite length_firstn; lia).
    assert (1 <= len (b :: rest)) as H1 by (unfold len; cbn [List.length]; lia).
    destruct (echo =? 1); cbn [fst snd app writes]; repeat split; lia.
Qed.

(** Six bytes waiting: the first four are the frame, the other two are lost. *)
Lemma readSerialBuffer_frames_witness :
  result_of (readSerialBuffer 1 [x81; x06; x00; xff; x81; x07])
  = Ok (Some [x81; x06; x00; xff]) /\
  state_of (readSerialBuffer 1 [x81; x06; x00; xff; x81; x07]) = [].
Proof.
  destruct (proj2 (readSerialBuffer_frames 1 [x81; x06; x00; xff; x81; x07])
              ltac:(discriminate)) as (Hr & Hs & _).
  split; [exact Hr | exact Hs].
Defined.

(** ** More on loadBinary *)

Lemma getitem_Ok_inv {A} (l : list A) (i : Z) (a : A) :
  0 <= i -> getitem l i = Ok a ->
  nth_error l (Z.to_nat i) = Some a /\ i < len l.
Proof.
  intros Hi Hg. rewrite getitem_nth_error in Hg by lia.
  destruct (nth_error l (Z.to_nat i)) as [x|] eqn:E; [|discriminate].
  injection Hg as ->. split; [reflexivity|].
  assert (nth_error l (Z.to_nat i) <> None) as Hs by congruence.
  apply nth_error_Some in Hs. unfold len. lia.
Qed.

Lemma getitem_app_l {A} (l l' : list A) (i : Z) (a : A) :
  0 <= i -> getitem l i = Ok a -> getitem (l ++ l') i = Ok a.
Proof.
  intros Hi Hg. destruct (getitem_Ok_inv l i a Hi Hg) as [Hn Hlt].
  rewrite getitem_nth_error by lia.
  rewrite nth_error_app1 by (unfold len in Hlt; lia). rewrite Hn. reflexivity.
Qed.

(** The call in full when packets 0x80 and 0x81 are there. *)
Lemma loadBinary_returns (contents : list byte) (self : BinaryFile)
    (p80 p81 : list byte) :
  let count := ceil_div (len contents) BYTES_PER_PACKET in
  let packets := filePackets self ++ map (packet_at contents) (range count) in
  let crcValue := crc_ccitt_false contents in
  getitem packets 0x80 = Ok p80 -> getitem packets 0x81 = Ok p81 ->
  result_of (loadBinary contents self) = Ok tt /\
  state_of (loadBinary contents self)
  = mkBinaryFile contents (len contents) count packets
      (PyStr (hex p80)) (PyStr (hex p81))
      (Z.shiftr (Z.land crcValue 0xFF00) 8) (Z.land crcValue 0x00FF) /\
  writes (trace_of (loadBinary contents self)) = [] /\
  len (trace_of (loadBinary contents self)) = 6.
Proof.
  cbv zeta. intros H80 H81.
  pose proof H81 as Hlen. apply getitem_Ok_inv in Hlen as [_ Hlen]; [|lia].
  unfold loadBinary, bind, modify, gets, lift, print, emit, result_of, state_of, trace_of.
  cbn [fst snd set_fileData set_fileSizeBytes set_fileSizePackets set_filePackets
       fileData fileSizeBytes fileSizePackets filePackets].
  rewrite append_packets_map, H80. cbv beta iota. rewrite H81. cbv beta iota.
  set (packets := filePackets self ++ map (packet_at contents)
                    (range (ceil_div (len contents) BYTES_PER_PACKET))) in *.
  destruct (getitem_in_range packets 0) as (p0 & -> & _); [lia|].
  destruct (getitem_in_range packets 1) as (p1 & -> & _); [lia|].
  destruct (getitem_in_range packets 2) as (p2 & -> & _); [lia|].
  cbn. repeat split.
Qed.

Lemma firstn_app_skipn {A} (a b : nat) (l : list A) :
  firstn a l ++ firstn b (skipn a l) = firstn (a + b) l.
Proof.
  revert l. induction a as [|a IH]; intros l; [reflexivity|].
  destruct l as [|x l]; cbn [firstn skipn Nat.add app].
  - now rewrite firstn_nil.
  - now rewrite IH.
Qed.

Lemma concat_slices (data : list byte) (m : nat) :
  List.concat (map (fun idx => slice data (idx * 4) (idx * 4 + 4))
              (map Z.of_nat (seq 0 m)))
  = firstn (4 * m) data.
Proof.
  induction m as [|m IH]; [reflexivity|].
  rewrite seq_S, !map_app, concat_app, IH. cbn [Nat.add map List.concat].
  rewrite app_nil_r. unfold slice.
  replace (Z.to_nat (Z.of_nat m * 4 + 4 - Z.of_nat m * 4)) with 4%nat by lia.
  replace (Z.to_nat (Z.of_nat m * 4)) with (4 * m)%nat by lia.
  rewrite firstn_app_skipn. f_equal. lia.
Qed.

(** X3. The packets of a freshly loaded image hold the file and nothing
    else: un-reversing every packet and joining them in order gives back the
    bytes of the file, whatever its length (a multiple of four or not, empty
    included). *)
Theorem loadBinary_packets_round_trip (contents : list byte) :
  List.concat (map (@rev byte)
            (filePackets (state_of (loadBinary contents BinaryFile_init))))
  = contents.
Proof.
  destruct (loadBinary_sizes contents BinaryFile_init) as (_ & _ & _ & Hp).
  rewrite Hp. cbn [filePackets BinaryFile_init app].
  rewrite map_map. unfold range.
  rewrite (map_ext _ (fun idx => slice contents (idx * 4) (idx * 4 + 4)))
    by (intros idx; unfold packet_at, BYTES_PER_PACKET; apply rev_involutive).
  rewrite concat_slices. apply firstn_all2.
  pose proof (ceil_div_4_bounds (len contents)) as Hb. unfold len in *. lia.
Qed.

Lemma loadBinary_needs_517_bytes_aux (contents : list byte) :
  (len contents <= 516 ->
   result_of (loadBinary contents BinaryFile_init) = Raise IndexError /\
   trace_of (loadBinary contents BinaryFile_init) = []) /\
  (516 < len contents -> result_of (loadBinary contents BinaryFile_init) = Ok tt).
Proof.
  pose proof (loadBinary_result contents) as Hres.
  destruct (Z.leb_spec (len contents) 516) as [Hle|Hgt]; split; try lia; intros _.
  - split; [exact Hres|].
    pose proof (ceil_div_4_bounds (len contents)) as Hb.
    set (count := ceil_div (len contents) BYTES_PER_PACKET) in *.
    unfold loadBinary, bind, modify, gets, lift, print, emit, trace_of.
    cbn [fst snd set_fileData set_fileSizeBytes set_fileSizePackets set_filePackets
         fileData fileSizeBytes fileSizePackets filePackets BinaryFile_init].
    rewrite append_packets_map. cbn [app]. fold count.
    destruct (Z.le_gt_cases count 0x80) as [H80|H80].
    + rewrite (getitem_past_end _ 0x80) by (rewrite len_map, range_length; lia).
      reflexivity.
    + rewrite (getitem_packets contents count 0x80) by lia. cbv beta iota.
      rewrite (getitem_past_end _ 0x81) by (rewrite len_map, range_length; lia).
      reflexivity.
  - exact Hres.
Qed.

(** X4. A file of at most 516 bytes cannot be loaded: the call ends in
    IndexError at the version look-up, after the packets are built and
    before anything is printed or the checksum is computed, so SW_MINOR and
    both checksum fields keep the 0 of a fresh image (and SW_MAJOR too when
    the file has at most 512 bytes).  A longer file loads, with six lines
    printed and nothing written to the port. *)
Theorem loadBinary_needs_517_bytes (contents : list byte) :
  (len contents <= 516 ->
   result_of (loadBinary contents BinaryFile_init) = Raise IndexError /\
   trace_of (loadBinary contents BinaryFile_init) = [] /\
   SW_MINOR (state_of (loadBinary contents BinaryFile_init)) = PyInt 0 /\
   CRC_MSB (state_of (loadBinary contents BinaryFile_init)) = 0 /\
   CRC_LSB (state_of (loadBinary contents BinaryFile_init)) = 0 /\
   (len contents <= 512 ->
    SW_MAJOR (state_of (loadBinary contents BinaryFile_init)) = PyInt 0)) /\
  (516 < len contents ->
   result_of (loadBinary contents BinaryFile_init) = Ok tt /\
   len (trace_of (loadBinary contents BinaryFile_init)) = 6 /\
   writes (trace_of (loadBinary contents BinaryFile_init)) = []).
Proof.
  pose proof (ceil_div_4_bounds (len contents)) as Hb.
  set (count := ceil_div (len contents) BYTES_PER_PACKET) in *.
  split.
  - intros Hshort.
    unfold loadBinary, bind, modify, gets, lift, print, emit, result_of, state_of, trace_of.
    cbn [fst snd set_fileData set_fileSizeBytes set_fileSizePackets set_filePackets
         fileData fileSizeBytes fileSizePackets filePackets BinaryFile_init].
    rewrite append_packets_map. cbn [app]. fold count.
    destruct (Z.le_gt_cases count 0x80) as [H80|H80].
    + rewrite (getitem_past_end _ 0x80) by (rewrite len_map, range_length; lia).
      cbn. repeat split.
    + rewrite (getitem_packets contents count 0x80) by lia. cbv beta iota.
      rewrite (getitem_past_end _ 0x81) by (rewrite len_map, range_length; lia).
      cbn. repeat split. intros H. lia.
  - intros Hlong.
    destruct (loadBinary_returns contents BinaryFile_init
                (packet_at contents 0x80) (packet_at contents 0x81))
      as (Hr & _ & Hw & Hn).
    + cbn [filePackets BinaryFile_init app]. apply getitem_packets. fold count. lia.
    + cbn [filePackets BinaryFile_init app]. apply getitem_packets. fold count. lia.
    + auto.
Qed.

(** The empty file, and the sample file of 520 bytes. *)
Lemma loadBinary_needs_517_bytes_witness :
  result_of (loadBinary [] BinaryFile_init) = Raise IndexError /\
  result_of (loadBinary (sample_firmware x01 x02) BinaryFile_init) = Ok tt.
Proof.
  split.
  - apply (proj1 (loadBinary_needs_517_bytes [])). vm_compute. discriminate.
  - apply (proj2 (loadBinary_needs_517_bytes (sample_firmware x01 x02))).
    vm_compute. reflexivity.
Defined.

Lemma slice_4 {A} (l : list A) (lo : Z) (a0 a1 a2 a3 : A) :
  0 <= lo ->
  getitem l lo = Ok a0 -> getitem l (lo + 1) = Ok a1 ->
  getitem l (lo + 2) = Ok a2 -> getitem l (lo + 3) = Ok a3 ->
  slice l lo (lo + 4) = [a0; a1; a2; a3].
Proof.
  intros Hlo H0 H1 H2 H3.
  apply getitem_Ok_inv in H0 as [H0 _]; [|lia].
  apply getitem_Ok_inv in H1 as [H1 _]; [|lia].
  apply getitem_Ok_inv in H2 as [H2 _]; [|lia].
  apply getitem_Ok_inv in H3 as [H3 _]; [|lia].
  rewrite (slice_step l lo (lo + 4) a0) by (lia || assumption).
  rewrite (slice_step l (lo + 1) (lo + 4) a1) by (lia || assumption).
  replace (lo + 1 + 1) with (lo + 2) by lia.
  rewrite (slice_step l (lo + 2) (lo + 4) a2) by (lia || assumption).
  replace (lo + 2 + 1) with (lo + 3) by lia.
  rewrite (slice_step l (lo + 3) (lo + 4) a3) by (lia || assumption).
  replace (lo + 3 + 1) with (lo + 4) by lia.
  rewrite slice_empty. reflexivity.
Qed.

(** The version fields of a fresh load, from the bytes of the file. *)
Lemma version_fields_of_load (contents : list byte)
    (d0 d1 d2 d3 e0 e1 e2 e3 : byte) :
  getitem contents 0x200 = Ok d0 -> getitem contents 0x201 = Ok d1 ->
  getitem contents 0x202 = Ok d2 -> getitem contents 0x203 = Ok d3 ->
  getitem contents 0x204 = Ok e0 -> getitem contents 0x205 = Ok e1 ->
  getitem contents 0x206 = Ok e2 -> getitem contents 0x207 = Ok e3 ->
  result_of (loadBinary contents BinaryFile_init) = Ok tt /\
  SW_MAJOR (state_of (loadBinary contents BinaryFile_init))
  = PyStr (hex [d3; d2; d1; d0]) /\
  SW_MINOR (state_of (loadBinary contents BinaryFile_init))
  = PyStr (hex [e3; e2; e1; e0]).
Proof.
  intros Hd0 Hd1 Hd2 Hd3 He0 He1 He2 He3.
  pose proof He3 as Hlen. apply getitem_Ok_inv in Hlen as [_ Hlen]; [|lia].
  pose proof (ceil_div_4_bounds (len contents)) as Hb.
  destruct (loadBinary_returns contents BinaryFile_init
              (packet_at contents 0x80) (packet_at contents 0x81))
    as (Hr & Hs & _).
  - cbn [filePackets BinaryFile_init app]. apply getitem_packets. lia.
  - cbn [filePackets BinaryFile_init app]. apply getitem_packets. lia.
  - rewrite Hs. cbn [SW_MAJOR SW_MINOR]. split; [exact Hr|].
    unfold packet_at, BYTES_PER_PACKET.
    change (0x80 * 4) with 0x200. change (0x81 * 4) with 0x204.
    rewrite (slice_4 contents 0x200 d0 d1 d2 d3) by (lia || assumption).
    rewrite (slice_4 contents 0x204 e0 e1 e2 e3) by (lia || assumption).
    split; reflexivity.
Qed.

(** X5. Where the version fields come from: for a file that has the eight
    bytes at offsets 0x200..0x207, a fresh load returns and leaves in
    SW_MAJOR the eight hex digits of bytes 0x203, 0x202, 0x201, 0x200, in
    that order, and in SW_MINOR those of bytes 0x207 down to 0x204: each
    field is the text of a whole little-endian word, most significant byte
    first, not one byte. *)
Theorem loadBinary_version_words (contents : list byte)
    (d0 d1 d2 d3 e0 e1 e2 e3 : byte) :
  getitem contents 0x200 = Ok d0 -> getitem contents 0x201 = Ok d1 ->
  getitem contents 0x202 = Ok d2 -> getitem contents 0x203 = Ok d3 ->
  getitem contents 0x204 = Ok e0 -> getitem contents 0x205 = Ok e1 ->
  getitem contents 0x206 = Ok e2 -> getitem contents 0x207 = Ok e3 ->
  result_of (loadBinary contents BinaryFile_init) = Ok tt /\
  SW_MAJOR (state_of (loadBinary contents BinaryFile_init))
  = PyStr (hex [d3; d2; d1; d0]) /\
  SW_MINOR (state_of (loadBinary contents BinaryFile_init))
  = PyStr (hex [e3; e2; e1; e0]).
Proof. apply version_fields_of_load. Qed.

(** The sample file with version words 0x0000002A and 0x00000007. *)
Lemma loadBinary_version_words_witness :
  SW_MAJOR (state_of (loadBinary (sample_firmware x2a x07) BinaryFile_init))
  = PyStr "0000002a" /\
  SW_MINOR (state_of (loadBinary (sample_firmware x2a x07) BinaryFile_init))
  = PyStr "00000007".
Proof.
  destruct (loadBinary_version_words (sample_firmware x2a x07)
              x2a x00 x00 x00 x07 x00 x00 x00) as (_ & Hmj & Hmn);
    try reflexivity.
  split; [exact Hmj | exact Hmn].
Defined.

(** X6. After a load that returns, CRC_MSB and CRC_LSB are both byte values
    (0..255) and together are the 16-bit checksum of the file:
    CRC_MSB * 256 + CRC_LSB is the CRC, so comparing them with two bytes of a
    frame loses nothing of it. *)
Theorem loadBinary_checksum_bytes (contents : list byte) (self : BinaryFile) :
  result_of (loadBinary contents self) = Ok tt ->
  0 <= CRC_MSB (state_of (loadBinary contents self)) < 256 /\
  0 <= CRC_LSB (state_of (loadBinary contents self)) < 256 /\
  CRC_MSB (state_of (loadBinary contents self)) * 256
  + CRC_LSB (state_of (loadBinary contents self))
  = crc_ccitt_false contents.
Proof.
  intros Hr. destruct (loadBinary_checksum16 contents self Hr) as [Hm Hl].
  cbv zeta in Hm, Hl. rewrite Hm, Hl.
  pose proof (crc_ccitt_false_range contents) as Hc.
  pose proof (Z.div_mod (crc_ccitt_false contents) 256 ltac:(lia)).
  pose proof (Z.mod_pos_bound (crc_ccitt_false contents) 256 ltac:(lia)).
  assert (0 <= crc_ccitt_false contents / 256 < 256)
    by (split; [apply Z.div_pos; lia | apply Z.div_lt_upper_bound; lia]).
  lia.
Qed.

Lemma loadBinary_checksum_bytes_witness :
  CRC_MSB (sample_image x01 x02) * 256 + CRC_LSB (sample_image x01 x02)
  = crc_ccitt_false (sample_firmware x01 x02).
Proof.
  apply (loadBinary_checksum_bytes (sample_firmware x01 x02) BinaryFile_init).
  reflexivity.
Defined.

(** X7. A second load into an object that already holds packets 0x80 and
    0x81 returns, appends the packets of the new file behind the old ones,
    sets the sizes and the checksum from the new file, and takes both
    version fields from the old packets: the version words of the new file
    are not read. *)
Theorem loadBinary_reload_keeps_version (contents : list byte) (self : BinaryFile)
    (p80 p81 : list byte) :
  getitem (filePackets self) 0x80 = Ok p80 ->
  getitem (filePackets self) 0x81 = Ok p81 ->
  result_of (loadBinary contents self) = Ok tt /\
  SW_MAJOR (state_of (loadBinary contents self)) = PyStr (hex p80) /\
  SW_MINOR (state_of (loadBinary contents self)) = PyStr (hex p81) /\
  filePackets (state_of (loadBinary contents self))
  = filePackets self
    ++ map (packet_at contents) (range (ceil_div (len contents) BYTES_PER_PACKET)) /\
  fileSizePackets (state_of (loadBinary contents self))
  = ceil_div (len contents) BYTES_PER_PACKET /\
  fileData (state_of (loadBinary contents self)) = contents.
Proof.
  intros H80 H81.
  destruct (loadBinary_returns contents self p80 p81) as (Hr & Hs & _).
  - apply getitem_app_l; [lia | exact H80].
  - apply getitem_app_l; [lia | exact H81].
  - rewrite Hs. cbn [SW_MAJOR SW_MINOR filePackets fileSizePackets fileData].
    repeat split; [exact Hr].
Qed.

(** Version 1.2 loaded, then version 3.4 into the same object: the fields
    still read 1 and 2, and the list holds 260 packets for a count of 130. *)
Lemma loadBinary_reload_keeps_version_witness :
  SW_MAJOR (state_of (loadBinary (sample_firmware x03 x04) (sample_image x01 x02)))
  = PyStr "00000001" /\
  len (filePackets
         (state_of (loadBinary (sample_firmware x03 x04) (sample_image x01 x02))))
  = 260 /\
  fileSizePackets
    (state_of (loadBinary (sample_firmware x03 x04) (sample_image x01 x02)))
  = 130.
Proof.
  destruct (loadBinary_reload_keeps_version (sample_firmware x03 x04)
              (sample_image x01 x02) [x00; x00; x00; x01] [x00; x00; x00; x02])
    as (_ & Hmj & _ & Hp & Hn & _); try reflexivity.
  split; [exact Hmj|]. split; [rewrite Hp | rewrite Hn]; reflexivity.
Defined.

(** ** More on the state machine *)

Lemma py_int_single_digit (d : byte) :
  byte_to_Z d <= 9 ->
  py_int (PyStr (hex [x00; x00; x00; d])) = Ok (byte_to_Z d).
Proof. destruct d; intros H; try reflexivity; exfalso; vm_compute in H; now apply H. Qed.

(** X8. When both version words of the file are single decimal digits (a
    byte of at most 9 at offsets 0x200 and 0x204, zeros in the three bytes
    after each), Idle_01 answers a 0x80 input with exactly
    0xC0, major, minor, 0xFF, echoes it and moves to
    CheckHeaderAndEraseMem_02, whatever follows the opcode in the input. *)
Theorem Idle_01_reply_single_digit (contents : list byte) (d e : byte)
    (rest : list byte) :
  getitem contents 0x200 = Ok d -> getitem contents 0x201 = Ok x00 ->
  getitem contents 0x202 = Ok x00 -> getitem contents 0x203 = Ok x00 ->
  getitem contents 0x204 = Ok e -> getitem contents 0x205 = Ok x00 ->
  getitem contents 0x206 = Ok x00 -> getitem contents 0x207 = Ok x00 ->
  byte_to_Z d <= 9 -> byte_to_Z e <= 9 ->
  execute (state_of (loadBinary contents BinaryFile_init)) (Some (x80 :: rest)) Idle_01
  = ([Print [PyStr "--> Device found! Starting communication to flash SW + sending SW version to MCU <--"];
      Write [xc0; d; e; xff];
      Print [PyStr "     TX-> "; PyStr (hex [xc0; d; e; xff])]],
     CheckHeaderAndEraseMem_02, Ok tt).
Proof.
  intros Hd0 Hd1 Hd2 Hd3 He0 He1 He2 He3 Hd He.
  destruct (version_fields_of_load contents d x00 x00 x00 e x00 x00 x00)
    as (_ & Hmj & Hmn); try assumption.
  pose proof (byte_to_Z_range d). pose proof (byte_to_Z_range e).
  rewrite (Idle_01_reply _ rest (byte_to_Z d) (byte_to_Z e));
    rewrite ?Hmj, ?Hmn, ?py_int_single_digit by assumption;
    try reflexivity; try lia.
  rewrite !byte_of_to_Z. reflexivity.
Qed.

Lemma Idle_01_reply_single_digit_witness :
  execute (sample_image x07 x09) (Some [x80]) Idle_01
  = ([Print [PyStr "--> Device found! Starting communication to flash SW + sending SW version to MCU <--"];
      Write [xc0; x07; x09; xff];
      Print [PyStr "     TX-> "; PyStr (hex [xc0; x07; x09; xff])]],
     CheckHeaderAndEraseMem_02, Ok tt).
Proof.
  apply (Idle_01_reply_single_digit (sample_firmware x07 x09) x07 x09 []);
    try reflexivity; vm_compute; discriminate.
Defined.

Lemma quiet_states_ok (bf : BinaryFile) (input : Input) (st : State) :
  kind st = KPrepare2Flash \/ kind st = KFlashDone \/ kind st = KError ->
  result_of (execute bf input st) = Ok tt /\
  writes (trace_of (execute bf input st)) = [].
Proof.
  intros [H|[H|H]]; destruct st; try discriminate;
    unfold_machine; unfold_eff;
    repeat match goal with
    | |- context [has_opcode input ?op] => destruct (has_opcode input op)
    end; split; reflexivity.
Qed.

(** X9. Prepare2Flash_03, FlashDone_99 and Error_98 never write to the port
    and never raise, whatever they are given: None, an empty or short read,
    or any frame, and whatever the image holds. *)
Theorem quiet_states_never_write (bf : BinaryFile) (input : Input) (st : State) :
  kind st = KPrepare2Flash \/ kind st = KFlashDone \/ kind st = KError ->
  result_of (execute bf input st) = Ok tt /\
  writes (trace_of (execute bf input st)) = [].
Proof.
  apply quiet_states_ok.
Qed.

Lemma quiet_states_never_write_witness :
  result_of (execute BinaryFile_init (Some [x82]) Prepare2Flash_03) = Ok tt /\
  writes (trace_of (execute BinaryFile_init (Some [x82]) Prepare2Flash_03)) = [].
Proof.
  apply (quiet_states_never_write BinaryFile_init (Some [x82]) Prepare2Flash_03).
  left. reflexivity.
Defined.

(** [stateActions] leaves the class of the state as it is, and in the four
    classes that inherit or only print, the state itself. *)
Lemma stateActions_kind (bf : BinaryFile) (input : Input) (st : State) :
  kind (state_of (stateActions bf input st)) = kind st.
Proof.
  destruct st as [| | |n| |]; try reflexivity.
  - unfold stateActions, CheckHeaderAndEraseMem_02_stateActions.
    destruct (has_opcode input 0x81); [|reflexivity].
    unfold bind, input_at, print, emit, ret, raise.
    destruct input as [bs|]; [|reflexivity].
    destruct (getitem bs 1); reflexivity.
  - unfold stateActions, Prepare2Flash_03_stateActions.
    destruct (has_opcode input 0x81); reflexivity.
  - destruct (Z.lt_ge_cases n (fileSizePackets bf)) as [Hlt|Hge].
    + destruct (getitem (filePackets bf) n) as [packet|e] eqn:Hg.
      * rewrite (stateActions_send bf input n packet) by assumption. reflexivity.
      * unfold stateActions, SendFlashData_04_stateActions, bind, gets, lift.
        cbn [packetNum]. apply Z.ltb_lt in Hlt. rewrite Hlt, Hg. reflexivity.
    + rewrite stateActions_drained by assumption. reflexivity.
Qed.

Lemma stateActions_payload (bf : BinaryFile) (st : State) (b : byte)
    (rest rest' : list byte) :
  (kind st = KCheckHeaderAndEraseMem -> byte_to_Z b <> 0x81) ->
  stateActions bf (Some (b :: rest)) st = stateActions bf (Some (b :: rest')) st.
Proof.
  intros Hc. destruct st as [| | |n| |]; try reflexivity.
  specialize (Hc eq_refl). apply Z.eqb_neq in Hc.
  unfold stateActions, CheckHeaderAndEraseMem_02_stateActions.
  rewrite !has_opcode_cons, Hc. reflexivity.
Qed.

Lemma stateTransition_payload (bf : BinaryFile) (st : State) (b : byte)
    (rest rest' : list byte) :
  (kind st = KCheckHeaderAndEraseMem -> byte_to_Z b <> 0x81) ->
  (kind st = KSendFlashData -> byte_to_Z b <> 0x84) ->
  stateTransition bf (Some (b :: rest)) st = stateTransition bf (Some (b :: rest')) st.
Proof.
  intros Hc Hs.
  destruct st as [| | |n| |];
    try (specialize (Hc eq_refl); apply Z.eqb_neq in Hc);
    try (specialize (Hs eq_refl); apply Z.eqb_neq in Hs);
    unfold stateTransition, Idle_01_stateTransition,
      CheckHeaderAndEraseMem_02_stateTransition, Prepare2Flash_03_stateTransition,
      SendFlashData_04_stateTransition, FlashDone_99_stateTransition,
      Error_98_stateTransition;
    rewrite ?has_opcode_cons, ?Hc, ?Hs; reflexivity.
Qed.

(** X10. The bytes after the opcode matter in two places only: 0x81 in
    CheckHeaderAndEraseMem_02 (sector and done flag) and 0x84 in
    SendFlashData_04 (checksum).  Everywhere else two inputs with the same
    first byte, of any lengths, give the same tick: same events, same next
    state, same outcome. *)
Theorem payload_ignored (bf : BinaryFile) (st : State) (b : byte)
    (rest rest' : list byte) :
  (kind st = KCheckHeaderAndEraseMem -> byte_to_Z b <> 0x81) ->
  (kind st = KSendFlashData -> byte_to_Z b <> 0x84) ->
  execute bf (Some (b :: rest)) st = execute bf (Some (b :: rest')) st.
Proof.
  intros Hc Hs. unfold execute, bind.
  rewrite (stateActions_payload bf st b rest rest' Hc).
  pose proof (stateActions_kind bf (Some (b :: rest')) st) as Hk.
  destruct (stateActions bf (Some (b :: rest')) st) as [[t1 s1] [[]|e]];
    [|reflexivity].
  unfold state_of in Hk. cbn [fst snd] in Hk.
  rewrite (stateTransition_payload bf s1 b rest rest'); [reflexivity | |];
    rewrite Hk; assumption.
Qed.

Lemma payload_ignored_witness :
  execute (sample_image x01 x02) (Some [x80; xff; xff; xff]) Idle_01
  = execute (sample_image x01 x02) (Some [x80]) Idle_01.
Proof.
  apply (payload_ignored (sample_image x01 x02) Idle_01 x80 [xff; xff; xff] []);
    discriminate.
Defined.

(** [stateTransition] never changes the state object it is called on, and
    what it returns is the start of an arrow of the diagram. *)
Lemma stateTransition_next (bf : BinaryFile) (input : Input) (s1 : State) :
  state_of (stateTransition bf input s1) = s1 /\
  match result_of (stateTransition bf input s1) with
  | Ok (Some nxt) => may_follow (kind s1) (kind nxt) = true
  | Ok None => may_follow (kind s1) (kind s1) = true
  | Raise _ => may_follow (kind s1) (kind s1) = true
  end.
Proof.
  destruct s1 as [| | |n| |].
  - unfold stateTransition, Idle_01_stateTransition.
    destruct (has_opcode input 0x80); [|split; reflexivity].
    unfold bind, lift, print, emit, ret, state_of, result_of.
    destruct (py_int (SW_MAJOR bf)) as [major|e]; [|split; reflexivity].
    destruct (to_bytes major 1) as [mj|e]; [|split; reflexivity].
    destruct (py_int (SW_MINOR bf)) as [minor|e]; [|split; reflexivity].
    destruct (to_bytes minor 1) as [mn|e]; [|split; reflexivity].
    cbv beta iota zeta. rewrite writeSerialBuffer_hex. split; reflexivity.
  - unfold stateTransition, CheckHeaderAndEraseMem_02_stateTransition.
    destruct (has_opcode input 0x8E); [split; reflexivity|].
    destruct (has_opcode input 0x81); [|split; reflexivity].
    unfold input_at, bind, lift, print, emit, ret, raise, state_of, result_of.
    destruct input as [bs|]; [|split; reflexivity].
    destruct (getitem bs 2) as [flag|e]; [|split; reflexivity]. cbv beta iota.
    destruct (byte_to_Z flag =? 0x01); [|split; reflexivity].
    destruct (to_bytes (fileSizePackets bf) 3) as [sz|e]; [|split; reflexivity].
    cbv beta iota.
    cbv zeta. rewrite writeSerialBuffer_hex. split; reflexivity.
  - unfold stateTransition, Prepare2Flash_03_stateTransition.
    destruct (has_opcode input 0x82); split; reflexivity.
  - unfold stateTransition, SendFlashData_04_stateTransition.
    destruct (has_opcode input 0x84).
    + unfold input_at, bind, gets, print, emit, ret, raise, state_of, result_of.
      destruct input as [bs|]; [|split; reflexivity].
      destruct (getitem bs 2) as [msb|e]; [|split; reflexivity]. cbv beta iota.
      destruct (byte_to_Z msb =? CRC_MSB bf); [|split; reflexivity].
      destruct (getitem bs 3) as [lsb|e]; [|split; reflexivity]. cbv beta iota.
      destruct (byte_to_Z lsb =? CRC_LSB bf); split; reflexivity.
    + destruct (has_opcode input 0x8F); split; reflexivity.
  - unfold stateTransition, FlashDone_99_stateTransition.
    destruct (has_opcode input 0x85); split; reflexivity.
  - split; reflexivity.
Qed.

(** X11. A tick only ever follows an arrow of the state diagram, for every
    image, every state and every input, well-formed or not, and also when it
    ends in an exception: Idle_01 stays or goes to CheckHeaderAndEraseMem_02;
    that one stays, returns to Idle_01 or goes to Prepare2Flash_03; that one
    stays or goes to SendFlashData_04; that one stays or goes to FlashDone_99
    or Error_98; FlashDone_99 stays or returns to Idle_01; Error_98 goes to
    Idle_01.  No input makes the machine skip a phase. *)
Theorem execute_follows_diagram (bf : BinaryFile) (input : Input) (st : State) :
  may_follow (kind st) (kind (state_of (execute bf input st))) = true.
Proof.
  unfold execute, bind.
  pose proof (stateActions_kind bf input st) as Hk.
  destruct (stateActions bf input st) as [[t1 s1] [[]|e]] eqn:Ha;
    unfold state_of in Hk; cbn [fst snd] in Hk.
  - destruct (stateTransition_next bf input s1) as [Hs Hn].
    destruct (stateTransition bf input s1) as [[t2 s2] [[nxt|]|e]];
      unfold state_of, result_of in Hs, Hn |- *; cbn [fst snd] in Hs, Hn |- *;
      unfold put, ret; cbn [fst snd]; subst s2; rewrite <- Hk; exact Hn.
  - unfold state_of. cbn [fst snd]. rewrite Hk.
    destruct st; try reflexivity. discriminate Ha.
Qed.

(** ** Runs that cannot fail *)

Lemma frame_or_none_inv (input : Input) :
  frame_or_none input = true ->
  input = None \/ exists b0 b1 b2 b3, input = Some [b0; b1; b2; b3].
Proof.
  destruct input as [[|b0 [|b1 [|b2 [|b3 [|b4 rest]]]]]|]; try discriminate.
  - intros _. right. exists b0, b1, b2, b3. reflexivity.
  - intros _. left. reflexivity.
Qed.

Lemma stateActions_safe (bf : BinaryFile) (input : Input) (st : State) :
  packets_available bf -> counter_in_range bf st -> frame_or_none input = true ->
  result_of (stateActions bf input st) = Ok tt /\
  counter_in_range bf (state_of (stateActions bf input st)).
Proof.
  intros Hav Hc Hf. destruct st as [| | |n| |]; try (split; [reflexivity | exact Hc]).
  - destruct (frame_or_none_inv input Hf) as [->|(b0 & b1 & b2 & b3 & ->)];
      [split; [reflexivity | exact Hc]|].
    unfold stateActions, CheckHeaderAndEraseMem_02_stateActions.
    destruct (has_opcode (Some [b0; b1; b2; b3]) 0x81);
      split; try reflexivity; exact Hc.
  - unfold stateActions, Prepare2Flash_03_stateActions.
    destruct (has_opcode input 0x81); split; try reflexivity; exact Hc.
  - unfold counter_in_range in Hc |- *. cbn [packetNum] in Hc.
    destruct (Z.eq_dec n (fileSizePackets bf)) as [Heq|Hne].
    + rewrite stateActions_drained by lia. split; [reflexivity|].
      unfold state_of. cbn [fst snd packetNum]. lia.
    + destruct (getitem_in_range (filePackets bf) n) as (packet & Hg & _);
        [unfold packets_available in Hav; lia|].
      rewrite (stateActions_send bf input n packet) by (lia || assumption).
      split; [reflexivity|]. unfold state_of. cbn [fst snd packetNum]. lia.
Qed.

Lemma has_opcode_inv (input : Input) (op : Z) :
  has_opcode input op = true ->
  exists b rest, input = Some (b :: rest) /\ byte_to_Z b = op.
Proof.
  destruct input as [[|b rest]|]; try discriminate.
  rewrite has_opcode_cons. intros H. apply Z.eqb_eq in H.
  exists b, rest. auto.
Qed.

Lemma stateTransition_safe (bf : BinaryFile) (input : Input) (s1 : State) :
  image_ready bf -> frame_or_none input = true ->
  exists next_state,
    result_of (stateTransition bf input s1) = Ok next_state /\
    state_of (stateTransition bf input s1) = s1 /\
    match next_state with
    | Some nxt => packetNum nxt = 0
    | None => True
    end.
Proof.
  intros (Hav & Hsz & (major & Hmj & Hmjr) & (minor & Hmn & Hmnr)) Hf.
  destruct s1 as [| | |n| |].
  - unfold stateTransition, Idle_01_stateTransition.
    destruct (has_opcode input 0x80) eqn:Hop;
      [|exists None; repeat split].
    exists (Some CheckHeaderAndEraseMem_02).
    unfold bind, lift, print, emit, ret, state_of, result_of.
    rewrite Hmj. cbv beta iota. rewrite (to_bytes_1 major Hmjr). cbv beta iota.
    rewrite Hmn. cbv beta iota. rewrite (to_bytes_1 minor Hmnr).
    cbv beta iota zeta. rewrite writeSerialBuffer_hex. repeat split.
  - destruct (frame_or_none_inv input Hf) as [->|(b0 & b1 & b2 & b3 & ->)];
      [exists None; repeat split|].
    unfold stateTransition, CheckHeaderAndEraseMem_02_stateTransition.
    destruct (has_opcode (Some [b0; b1; b2; b3]) 0x8E);
      [exists (Some Idle_01); repeat split|].
    destruct (has_opcode (Some [b0; b1; b2; b3]) 0x81);
      [|exists None; repeat split].
    unfold bind, lift, print, emit, ret, state_of, result_of.
    rewrite input_at_2. cbv beta iota.
    destruct (byte_to_Z b2 =? 0x01); [|exists None; repeat split].
    exists (Some Prepare2Flash_03).
    unfold packets_available in Hav.
    rewrite (to_bytes_3 (fileSizePackets bf)) by lia.
    cbv beta iota zeta. rewrite writeSerialBuffer_hex. repeat split.
  - unfold stateTransition, Prepare2Flash_03_stateTransition.
    destruct (has_opcode input 0x82);
      [exists (Some (SendFlashData_04 0)) | exists None]; repeat split.
  - destruct (frame_or_none_inv input Hf) as [->|(b0 & b1 & b2 & b3 & ->)];
      [exists None; repeat split|].
    unfold stateTransition, SendFlashData_04_stateTransition.
    destruct (has_opcode (Some [b0; b1; b2; b3]) 0x84).
    + exists (Some FlashDone_99).
      unfold bind, gets, print, emit, ret, state_of, result_of.
      rewrite input_at_2. cbv beta iota.
      destruct (byte_to_Z b2 =? CRC_MSB bf);
        [rewrite input_at_3; cbv beta iota;
         destruct (byte_to_Z b3 =? CRC_LSB bf)|]; repeat split.
    + destruct (has_opcode (Some [b0; b1; b2; b3]) 0x8F);
        [exists (Some Error_98) | exists None]; repeat split.
  - unfold stateTransition, FlashDone_99_stateTransition.
    destruct (has_opcode input 0x85);
      [exists (Some Idle_01) | exists None]; repeat split.
  - exists (Some Idle_01). repeat split.
Qed.

Lemma execute_safe (bf : BinaryFile) (input : Input) (st : State) :
  image_ready bf -> counter_in_range bf st -> frame_or_none input = true ->
  result_of (execute bf input st) = Ok tt /\
  counter_in_range bf (state_of (execute bf input st)).
Proof.
  intros Hr Hc Hf. pose proof Hr as (Hav & _).
  destruct (stateActions_safe bf input st Hav Hc Hf) as [Ha Hc1].
  unfold execute, bind.
  destruct (stateActions bf input st) as [[t1 s1] r1].
  unfold result_of, state_of in Ha, Hc1. cbn [fst snd] in Ha, Hc1. subst r1.
  destruct (stateTransition_safe bf input s1 Hr Hf) as (nxt & Hn & Hs & Hp).
  destruct (stateTransition bf input s1) as [[t2 s2] r2].
  unfold result_of, state_of in Hn, Hs |- *. cbn [fst snd] in Hn, Hs |- *.
  subst r2 s2. destruct nxt as [nxt|]; unfold put, ret; cbn [fst snd].
  - split; [reflexivity|]. unfold counter_in_range. rewrite Hp.
    unfold packets_available in Hav. lia.
  - split; [reflexivity | exact Hc1].
Qed.

(** X12. With an image the machine can answer from (it holds the packets
    it announces, fewer than 2^24, and both version fields read as numbers
    below 256) and inputs that are each None or exactly four bytes, no
    sequence of ticks ever raises, from any state whose counter is within
    0..fileSizePackets (Idle_01 in particular), and the counter is still
    within 0..fileSizePackets at the end. *)
Theorem run_never_raises (bf : BinaryFile) (inputs : list Input) (st : State) :
  image_ready bf -> counter_in_range bf st ->
  Forall (fun input => frame_or_none input = true) inputs ->
  result_of (run bf inputs st) = Ok tt /\
  counter_in_range bf (state_of (run bf inputs st)).
Proof.
  intros Hr Hc Hall. revert st Hc.
  induction Hall as [|input inputs Hf Hall IH]; intros st Hc.
  - split; [reflexivity | exact Hc].
  - cbn [run]. unfold bind.
    destruct (execute_safe bf input st Hr Hc Hf) as [He Hc1].
    destruct (execute bf input st) as [[t1 s1] r1].
    unfold result_of, state_of in He, Hc1. cbn [fst snd] in He, Hc1. subst r1.
    destruct (IH s1 Hc1) as [Hrun Hc2].
    destruct (run bf inputs s1) as [[t2 s2] r2].
    unfold result_of, state_of in Hrun, Hc2 |- *. cbn [fst snd] in Hrun, Hc2 |- *.
    auto.
Qed.

Lemma sample_image_ready : image_ready (sample_image x01 x02).
Proof.
  split; [apply loadBinary_packets_available|].
  split; [reflexivity|].
  split; [exists 1 | exists 2]; (split; [reflexivity | lia]).
Qed.

Lemma run_never_raises_witness :
  result_of (run (sample_image x01 x02)
               [Some [x80; xff; xff; xff]; None; Some [x8f; x00; x00; x00];
                Some [x81; x06; x01; xff]; Some [x82; x00; x00; x82]; None]
               Idle_01) = Ok tt.
Proof.
  apply (run_never_raises (sample_image x01 x02)
           [Some [x80; xff; xff; xff]; None; Some [x8f; x00; x00; x00];
            Some [x81; x06; x01; xff]; Some [x82; x00; x00; x82]; None]
           Idle_01 sample_image_ready).
  - vm_compute. split; discriminate.
  - repeat constructor.
Defined.

(** ** A whole session *)

Lemma trace_of_triple {S A} (t : list event) (s : S) (r : outcome A) :
  trace_of (t, s, r) = t.
Proof. reflexivity. Qed.

Lemma run_cons_ok (bf : BinaryFile) (input : Input) (rest : list Input)
    (st s' : State) (t : list event) :
  execute bf input st = (t, s', Ok tt) ->
  run bf (input :: rest) st
  = (t ++ trace_of (run bf rest s'), state_of (run bf rest s'),
     result_of (run bf rest s')).
Proof.
  intros He. cbn [run]. unfold bind. rewrite He.
  destruct (run bf rest s') as [[t2 s2] r2]. reflexivity.
Qed.

Lemma run_app_ok (bf : BinaryFile) (l1 l2 : list Input) (st : State) :
  result_of (run bf l1 st) = Ok tt ->
  run bf (l1 ++ l2) st
  = (trace_of (run bf l1 st) ++ trace_of (run bf l2 (state_of (run bf l1 st))),
     state_of (run bf l2 (state_of (run bf l1 st))),
     result_of (run bf l2 (state_of (run bf l1 st)))).
Proof.
  revert st. induction l1 as [|input l1 IH]; intros st Hr.
  - cbn. destruct (run bf l2 st) as [[t2 s2] r2]. reflexivity.
  - cbn [app run] in Hr |- *. unfold bind in Hr |- *.
    destruct (execute bf input st) as [[t1 s1] [[]|e]].
    + specialize (IH s1). destruct (run bf l1 s1) as [[t2 s2] r2].
      unfold result_of in Hr. cbn [fst snd] in Hr. subst r2.
      rewrite IH by reflexivity.
      unfold trace_of, state_of, result_of. cbn [fst snd].
      rewrite app_assoc. reflexivity.
    + discriminate Hr.
Qed.

Lemma firstn_snoc {A} (l : list A) (k : nat) (a : A) :
  nth_error l k = Some a -> firstn (S k) l = firstn k l ++ [a].
Proof.
  revert l. induction k as [|k IH]; intros l Hn; destruct l as [|x l];
    try discriminate.
  - cbn in Hn. injection Hn as ->. reflexivity.
  - cbn [nth_error] in Hn. cbn [firstn app]. f_equal. apply IH, Hn.
Qed.

Lemma slice_snoc {A} (l : list A) (lo hi : Z) (a : A) :
  0 <= lo <= hi -> nth_error l (Z.to_nat hi) = Some a ->
  slice l lo (hi + 1) = slice l lo hi ++ [a].
Proof.
  intros Hb Hn. unfold slice.
  replace (Z.to_nat (hi + 1 - lo)) with (S (Z.to_nat (hi - lo))) by lia.
  apply firstn_snoc. rewrite nth_error_skipn.
  replace (Z.to_nat lo + Z.to_nat (hi - lo))%nat with (Z.to_nat hi) by lia.
  exact Hn.
Qed.

Lemma execute_erase_done (bf : BinaryFile) (sector b3 : byte) :
  0 <= fileSizePackets bf < 2 ^ 24 ->
  execute bf (Some [x81; sector; x01; b3]) CheckHeaderAndEraseMem_02
  = ([Print [PyStr "--> Erasing flash memory - Sector "; PyInt (byte_to_Z sector);
             PyStr " erased! <--"];
      Print [PyStr "--> Erasing flash memory - All sectors erased succesfully! <--"];
      Write (xc1 :: be_bytes 3 (fileSizePackets bf));
      Print [PyStr "     TX-> "; PyStr (hex (xc1 :: be_bytes 3 (fileSizePackets bf)))]],
     Prepare2Flash_03, Ok tt).
Proof.
  intros Hn. unfold_machine. rewrite !has_opcode_cons.
  replace (byte_to_Z x81 =? 0x81) with true by reflexivity.
  replace (byte_to_Z x81 =? 0x8E) with false by reflexivity.
  eff_step.
  replace (byte_to_Z x01 =? 0x01) with true by reflexivity.
  assert (to_bytes (fileSizePackets bf) 3 = Ok (be_bytes 3 (fileSizePackets bf))) as ->.
  { unfold to_bytes. destruct (Z.ltb_spec (fileSizePackets bf) 0); [lia|].
    destruct (Z.leb_spec (256 ^ Z.of_nat 3) (fileSizePackets bf)) as [Hle|_];
      [change (256 ^ Z.of_nat 3) with (2 ^ 24) in Hle; lia | reflexivity]. }
  eff_step. reflexivity.
Qed.

Lemma writes_summary (bf : BinaryFile) (args : list pyval) (msb lsb : Z) :
  writes [Print args; crc_diagnostic bf msb lsb] = [].
Proof.
  unfold crc_diagnostic.
  destruct ((msb =? CRC_MSB bf) && (lsb =? CRC_LSB bf)); reflexivity.
Qed.

(** The tick that ends the streaming, from any counter in range: the packet
    at the counter goes out if one is left, which brings the writes of the
    stream up to the counter after the tick. *)
Lemma execute_0x84_streams (bf : BinaryFile) (n : Z) (b1 b2 b3 : byte) :
  packets_available bf -> 0 <= n <= fileSizePackets bf ->
  result_of (execute bf (Some [x84; b1; b2; b3]) (SendFlashData_04 n)) = Ok tt /\
  state_of (execute bf (Some [x84; b1; b2; b3]) (SendFlashData_04 n)) = FlashDone_99 /\
  slice (filePackets bf) 0 n
  ++ writes (trace_of (execute bf (Some [x84; b1; b2; b3]) (SendFlashData_04 n)))
  = slice (filePackets bf) 0 (Z.min (n + 1) (fileSizePackets bf)).
Proof.
  intros Hav Hn. unfold execute, bind.
  destruct (Z.eq_dec n (fileSizePackets bf)) as [Heq|Hne].
  - rewrite stateActions_drained by lia. rewrite stateTransition_0x84.
    unfold put, result_of, state_of, trace_of. cbn [fst snd].
    rewrite app_nil_r, writes_app, writes_progress_report, writes_summary.
    cbn [app]. rewrite app_nil_r, Z.min_r by lia. subst n. auto.
  - destruct (getitem_in_range (filePackets bf) n) as (packet & Hg & Hnth);
      [unfold packets_available in Hav; lia|].
    rewrite (stateActions_send bf _ n packet) by (lia || assumption).
    rewrite stateTransition_0x84.
    unfold put, result_of, state_of, trace_of. cbn [fst snd].
    rewrite app_nil_r, writes_app, writes_summary, app_nil_r.
    cbn [writes]. rewrite writes_progress_report, Z.min_l by lia.
    rewrite (slice_snoc _ 0 n packet) by (lia || assumption). auto.
Qed.

Lemma slice_all {A} (l : list A) : slice l 0 (len l) = l.
Proof.
  unfold slice, len. rewrite Z.sub_0_r, Nat2Z.id. cbn [Z.to_nat skipn].
  apply firstn_all.
Qed.

(** X13. A whole session, composed from the ticks.  On an image that holds
    exactly the packets it announces (as after one load into a fresh
    object), fewer than 2^24 of them, and whose two version fields [int]
    reads as numbers below 256: from Idle_01, the inputs 0x80, then 0x81
    with the done flag, then 0x82, then ticks without a terminal opcode (at
    least fileSizePackets - 1 of them), then 0x84 and 0x85, do not raise and
    bring the machine back to Idle_01; what is written to the port is
    exactly the version reply, then 0xC1 and the packet count on three
    bytes, then every packet of the image once, in order, and nothing else.
    The tick of the 0x84 frame sends the last packet when one is still
    due. *)
Theorem session_transmits_image (bf : BinaryFile) (major minor : Z)
    (r80 r82 r85 : list byte) (sector b3 c1 c2 c3 : byte) (mid : list Input) :
  fileSizePackets bf = len (filePackets bf) -> fileSizePackets bf < 2 ^ 24 ->
  py_int (SW_MAJOR bf) = Ok major -> 0 <= major < 256 ->
  py_int (SW_MINOR bf) = Ok minor -> 0 <= minor < 256 ->
  Forall (fun input => terminal input = false) mid ->
  fileSizePackets bf <= len mid + 1 ->
  let inputs :=
    [Some (x80 :: r80); Some [x81; sector; x01; b3]; Some (x82 :: r82)]
    ++ mid ++ [Some [x84; c1; c2; c3]; Some (x85 :: r85)] in
  result_of (run bf inputs Idle_01) = Ok tt /\
  state_of (run bf inputs Idle_01) = Idle_01 /\
  writes (trace_of (run bf inputs Idle_01))
  = [xc0; byte_of_Z major; byte_of_Z minor; xff]
    :: (xc1 :: be_bytes 3 (fileSizePackets bf))
    :: filePackets bf.
Proof.
  intros Hcons Hsz Hmj Hmjr Hmn Hmnr Hmid Hlen. cbv zeta.
  assert (packets_available bf) as Hav
    by (unfold packets_available; pose proof (len_nonneg (filePackets bf)); lia).
  pose proof Hav as [Hc0 Hc1]. pose proof (len_nonneg mid) as Hm.
  destruct (run_streaming bf mid Hav Hmid 0 ltac:(lia)) as (Hr & Hs & Hw).
  rewrite Z.add_0_l in Hs, Hw.
  set (c := Z.min (len mid) (fileSizePackets bf)) in *.
  destruct (execute_0x84_streams bf c c1 c2 c3 Hav ltac:(lia)) as (H84r & H84s & H84w).
  destruct (execute bf (Some [x84; c1; c2; c3]) (SendFlashData_04 c))
    as [[t84 s84] r84] eqn:E84.
  unfold result_of, state_of, trace_of in H84r, H84s, H84w.
  cbn [fst snd] in H84r, H84s, H84w. subst r84 s84.
  set (tail := [Some [x84; c1; c2; c3]; Some (x85 :: r85)]).
  assert (run bf tail (SendFlashData_04 c)
          = (t84 ++ [Print [PyStr "--> Bootloader finished. Jumping to application <--"]],
             Idle_01, Ok tt)) as E4.
  { unfold tail. rewrite (run_cons_ok bf _ _ _ _ _ E84). reflexivity. }
  assert (run bf (mid ++ tail) (SendFlashData_04 0)
          = (trace_of (run bf mid (SendFlashData_04 0))
             ++ t84 ++ [Print [PyStr "--> Bootloader finished. Jumping to application <--"]],
             Idle_01, Ok tt)) as E3.
  { rewrite (run_app_ok bf mid tail (SendFlashData_04 0) Hr), Hs, E4. reflexivity. }
  assert (run bf (Some (x82 :: r82) :: mid ++ tail) Prepare2Flash_03
          = ([Print [PyStr "--> Sw authorized to be flashed <--"]]
             ++ trace_of (run bf mid (SendFlashData_04 0))
             ++ t84 ++ [Print [PyStr "--> Bootloader finished. Jumping to application <--"]],
             Idle_01, Ok tt)) as E2.
  { assert (execute bf (Some (x82 :: r82)) Prepare2Flash_03
            = ([Print [PyStr "--> Sw authorized to be flashed <--"]],
               SendFlashData_04 0, Ok tt)) as E82 by reflexivity.
    rewrite (run_cons_ok bf _ _ _ _ _ E82), E3. reflexivity. }
  cbn [app].
  rewrite (run_cons_ok bf _ _ Idle_01 _ _
             (Idle_01_reply bf r80 major minor Hmj Hmjr Hmn Hmnr)).
  rewrite (run_cons_ok bf _ _ CheckHeaderAndEraseMem_02 _ _
             (execute_erase_done bf sector b3 ltac:(lia))).
  rewrite E2. split; [reflexivity|]. split; [reflexivity|].
  rewrite !trace_of_triple.
  cbn [app writes]. rewrite !writes_app, Hw, app_assoc, H84w.
  cbn [writes app]. rewrite app_nil_r.
  replace (Z.min (c + 1) (fileSizePackets bf)) with (fileSizePackets bf) by lia.
  rewrite Hcons, slice_all. reflexivity.
Qed.

(** The sample image, one spare idle tick: 132 writes, the reply, the count
    and the 130 packets. *)
Lemma session_transmits_image_witness :
  writes (trace_of
    (run (sample_image x01 x02)
       ([Some [x80; xff; xff; xff]; Some [x81; x0a; x01; xff]; Some [x82; x00; x00; x82]]
        ++ repeat None 130 ++ [Some [x84; x00; x8f; x8f]; Some [x85; xff; xff; xff]])
       Idle_01))
  = [xc0; x01; x02; xff] :: [xc1; x00; x00; x82]
    :: filePackets (sample_image x01 x02).
Proof.
  destruct (session_transmits_image (sample_image x01 x02) 1 2
              [xff; xff; xff] [x00; x00; x82] [xff; xff; xff] x0a xff x00 x8f x8f
              (repeat None 130))
    as (_ & _ & Hw);
    [ first [ reflexivity | lia | (vm_compute; discriminate)
            | (apply Forall_forall; intros input Hin;
               apply repeat_spec in Hin; now subst) ] ..
    | etransitivity; [exact Hw | reflexivity] ].
Defined.

(** ** Erase progress, version skip and abort *)

Lemma execute_erase_progress (bf : BinaryFile) (sector flag b3 : byte) :
  flag <> x01 ->
  execute bf (Some [x81; sector; flag; b3]) CheckHeaderAndEraseMem_02
  = ([Print [PyStr "--> Erasing flash memory - Sector "; PyInt (byte_to_Z sector);
             PyStr " erased! <--"]],
     CheckHeaderAndEraseMem_02, Ok tt).
Proof.
  intros Hflag.
  assert ((byte_to_Z flag =? 0x01) = false) as Hf.
  { apply Z.eqb_neq. intros E. apply Hflag. apply byte_to_Z_inj. exact E. }
  unfold_machine. rewrite !has_opcode_cons.
  replace (byte_to_Z x81 =? 0x81) with true by reflexivity.
  replace (byte_to_Z x81 =? 0x8E) with false by reflexivity.
  eff_step. rewrite Hf. reflexivity.
Qed.

Lemma run_erase_progress (bf : BinaryFile) (reports : list (byte * byte * byte)) :
  Forall (fun '(_, flag, _) => flag <> x01) reports ->
  run bf (progress_frames reports) CheckHeaderAndEraseMem_02
  = (progress_log reports, CheckHeaderAndEraseMem_02, Ok tt).
Proof.
  intros Hall. induction Hall as [|[[sector flag] b3] reports Hf Hall IH];
    [reflexivity|].
  cbn [progress_frames progress_log map].
  rewrite (run_cons_ok bf _ _ _ _ _ (execute_erase_progress bf sector flag b3 Hf)).
  fold (progress_frames reports). rewrite IH. reflexivity.
Qed.

(** X14. In CheckHeaderAndEraseMem_02 any number of 0x81 reports whose done
    flag is not 0x01 are logged one line each, in the order received, with
    nothing written and the state kept; a 0x8E input after them (version
    already flashed) is logged and takes the machine back to Idle_01, again
    with nothing written: the skip sends no packet count and no packet. *)
Theorem erase_reports_then_skip (bf : BinaryFile)
    (reports : list (byte * byte * byte)) (r8E : list byte) :
  Forall (fun '(_, flag, _) => flag <> x01) reports ->
  run bf (progress_frames reports) CheckHeaderAndEraseMem_02
  = (progress_log reports, CheckHeaderAndEraseMem_02, Ok tt) /\
  run bf (progress_frames reports ++ [Some (x8e :: r8E)]) CheckHeaderAndEraseMem_02
  = (progress_log reports
     ++ [Print [PyStr "--> SW version already flashed in MCU. No action! <--"]],
     Idle_01, Ok tt) /\
  writes (progress_log reports) = [].
Proof.
  intros Hall. pose proof (run_erase_progress bf reports Hall) as Hrun.
  split; [exact Hrun|]. split.
  - rewrite run_app_ok by (rewrite Hrun; reflexivity). rewrite Hrun.
    reflexivity.
  - clear. induction reports as [|[[sector flag] b3] reports IH]; [reflexivity|].
    exact IH.
Qed.

(** The five reports of the recorded session, without the last one's done
    flag, then 0x8E. *)
Lemma erase_reports_then_skip_witness :
  state_of (run (sample_image x01 x02)
              (progress_frames [(x06, x00, xff); (x07, x00, xff); (x08, x00, xff)]
               ++ [Some [x8e; xff; xff; xff]])
              CheckHeaderAndEraseMem_02) = Idle_01.
Proof.
  destruct (erase_reports_then_skip (sample_image x01 x02)
              [(x06, x00, xff); (x07, x00, xff); (x08, x00, xff)] [xff; xff; xff])
    as (_ & Hrun & _).
  - repeat constructor; discriminate.
  - etransitivity; [apply (f_equal state_of Hrun) | reflexivity].
Defined.

(** X15. An abort during streaming, tick by tick.  On an image that holds
    the packets it announces and whose two version fields [int] reads as
    numbers below 256, with the counter n within 0..fileSizePackets: (1) an
    input starting with 0x8F in SendFlashData_04 does not raise, has the
    packet at the counter written when one is due (none otherwise) and
    leaves the machine in Error_98; (2) in Error_98 the next input, whatever
    it is (None, a short read, a 0x80 frame), is not looked at: the tick
    prints the abort line, writes nothing and leaves the machine in Idle_01;
    (3) an input starting with 0x80 then gets the version reply and the
    machine is in CheckHeaderAndEraseMem_02; (4) so the three ticks in a row
    do not raise and the port sees at most that one packet and then exactly
    one reply. *)
Theorem abort_then_restart (bf : BinaryFile) (n major minor : Z)
    (r8F r80 : list byte) (dropped : Input) :
  packets_available bf -> 0 <= n <= fileSizePackets bf ->
  py_int (SW_MAJOR bf) = Ok major -> 0 <= major < 256 ->
  py_int (SW_MINOR bf) = Ok minor -> 0 <= minor < 256 ->
  let inputs := [Some (x8f :: r8F); dropped; Some (x80 :: r80)] in
  (result_of (execute bf (Some (x8f :: r8F)) (SendFlashData_04 n)) = Ok tt /\
   state_of (execute bf (Some (x8f :: r8F)) (SendFlashData_04 n)) = Error_98 /\
   writes (trace_of (execute bf (Some (x8f :: r8F)) (SendFlashData_04 n)))
   = slice (filePackets bf) n (Z.min (n + 1) (fileSizePackets bf))) /\
  execute bf dropped Error_98
  = ([Print [PyStr "--> Process error. Aborting! <--"]], Idle_01, Ok tt) /\
  execute bf (Some (x80 :: r80)) Idle_01
  = ([Print [PyStr "--> Device found! Starting communication to flash SW + sending SW version to MCU <--"];
      Write [xc0; byte_of_Z major; byte_of_Z minor; xff];
      Print [PyStr "     TX-> "; PyStr (hex [xc0; byte_of_Z major; byte_of_Z minor; xff])]],
     CheckHeaderAndEraseMem_02, Ok tt) /\
  result_of (run bf inputs (SendFlashData_04 n)) = Ok tt /\
  state_of (run bf inputs (SendFlashData_04 n)) = CheckHeaderAndEraseMem_02 /\
  writes (trace_of (run bf inputs (SendFlashData_04 n)))
  = slice (filePackets bf) n (Z.min (n + 1) (fileSizePackets bf))
    ++ [[xc0; byte_of_Z major; byte_of_Z minor; xff]].
Proof.
  intros Hav Hn Hmj Hmjr Hmn Hmnr. cbv zeta.
  assert (exists t8F,
            execute bf (Some (x8f :: r8F)) (SendFlashData_04 n) = (t8F, Error_98, Ok tt) /\
            writes t8F = slice (filePackets bf) n (Z.min (n + 1) (fileSizePackets bf)))
    as (t8F & E8F & Hw).
  { unfold execute, bind.
    destruct (Z.eq_dec n (fileSizePackets bf)) as [Heq|Hne].
    - rewrite stateActions_drained by lia. rewrite stateTransition_0x8F.
      eexists. split; [reflexivity|].
      rewrite app_nil_r, writes_app, writes_progress_report.
      rewrite Z.min_r by lia. subst n. rewrite slice_empty. reflexivity.
    - destruct (getitem_in_range (filePackets bf) n) as (packet & Hg & Hnth);
        [unfold packets_available in Hav; lia|].
      rewrite (stateActions_send bf _ n packet) by (lia || assumption).
      rewrite stateTransition_0x8F.
      eexists. split; [reflexivity|].
      rewrite app_nil_r, writes_app. cbn [writes].
      rewrite writes_progress_report, Z.min_l by lia. cbn [app].
      rewrite (slice_step _ n (n + 1) packet) by (lia || assumption).
      rewrite slice_empty. reflexivity. }
  assert (execute bf dropped Error_98
          = ([Print [PyStr "--> Process error. Aborting! <--"]], Idle_01, Ok tt))
    as Edrop by reflexivity.
  pose proof (Idle_01_reply bf r80 major minor Hmj Hmjr Hmn Hmnr) as E80.
  split; [rewrite E8F; repeat split; exact Hw|].
  split; [exact Edrop|]. split; [exact E80|].
  rewrite (run_cons_ok bf _ _ _ _ _ E8F).
  rewrite (run_cons_ok bf _ _ _ _ _ Edrop).
  rewrite (run_cons_ok bf _ _ _ _ _ E80).
  split; [reflexivity|]. split; [reflexivity|].
  rewrite !trace_of_triple. rewrite writes_app, Hw. reflexivity.
Qed.

(** The device reports an error at packet 5 and sends 0x80 twice: the first
    is lost in Error_98, the second is answered. *)
Lemma abort_then_restart_witness :
  writes (trace_of (run (sample_image x01 x02)
                      [Some [x8f; xff; xff; xff]; Some [x80; xff; xff; xff];
                       Some [x80; xff; xff; xff]]
                      (SendFlashData_04 5)))
  = [[x00; x00; x00; x00]; [xc0; x01; x02; xff]].
Proof.
  destruct (abort_then_restart (sample_image x01 x02) 5 1 2
              [xff; xff; xff] [xff; xff; xff] (Some [x80; xff; xff; xff])
              (loadBinary_packets_available _ _))
    as (_ & _ & _ & _ & _ & Hw);
    [ first [ reflexivity | lia | (vm_compute; split; discriminate) ] ..
    | etransitivity; [exact Hw | reflexivity] ].
Defined.

(** ** The polling loop *)

(** One iteration, spelled out: with nothing waiting the machine is run on
    None and the idle counter goes up by one; otherwise the read is echoed
    and the machine is run on the first four bytes at most. *)
Lemma main_iteration_cases (bf : BinaryFile) (in_buffer : list byte)
    (st : State) (attemptCntr : Z) :
  main_iteration bf in_buffer (st, attemptCntr)
  = match in_buffer with
    | [] =>
        match execute bf None st with
        | (t, st', Ok _) => (t, (st', attemptCntr + 1), Ok tt)
        | (t, st', Raise e) => (t, (st', attemptCntr), Raise e)
        end
    | _ :: _ =>
        match execute bf (Some (firstn 4 in_buffer)) st with
        | (t, st', Ok _) =>
            (Print [PyStr "     RX-> "; PyStr (hex (firstn 4 in_buffer))] :: t,
             (st', attemptCntr), Ok tt)
        | (t, st', Raise e) =>
            (Print [PyStr "     RX-> "; PyStr (hex (firstn 4 in_buffer))] :: t,
             (st', attemptCntr), Raise e)
        end
    end.
Proof.
  destruct in_buffer as [|b rest].
  - unfold main_iteration. cbn [readSerialBuffer].
    change (readSerialBuffer 1 []) with (@nil event, @nil byte, @Ok Input None).
    cbv beta iota.
    destruct (execute bf None st) as [[t st'] [[]|e]]; reflexivity.
  - unfold main_iteration.
    rewrite (proj2 (readSerialBuffer_cases 1 (b :: rest)) ltac:(discriminate)). cbv beta iota.
    destruct (execute bf (Some (firstn 4 (b :: rest))) st) as [[t st'] [[]|e]];
      reflexivity.
Qed.

(** The rest of the loop after an iteration that neither raised nor broke
    out, by the induction hypothesis [IH] on the polls that remain. *)
Ltac after_iteration IH :=
  match goal with
  | |- context [main_loop ?bf ?polls (?s', ?c', ?port)] =>
      specialize (IH s' c');
      destruct (main_loop bf polls (s', c', port)) as [[t2 s2] [[|]|e]];
      unfold result_of, state_of, trace_of in IH |- *; cbn [fst snd] in IH |- *;
      [ destruct IH as [Hp [t Ht]]; split; [exact Hp|];
        eexists; rewrite Ht, app_assoc; reflexivity
      | destruct IH as (Hp & Hcnt & Hall); split; [exact Hp|]; split;
        [ rewrite Hcnt; cbn [idle_polls]; lia
        | constructor; [reflexivity | exact Hall] ]
      | exact IH ]
  end.

(** X16. How the polling loop can end.  If it is left by [break], the port
    has been closed and the last two lines printed are the two stop
    messages.  If the observations run out with the loop still turning, the
    port is as it was, 'q' was never down, and [attemptCntr] has grown by
    exactly the number of polls in which nothing was waiting.  If a tick
    raises, the exception leaves the loop with the port as it was: it is not
    closed. *)
Theorem main_loop_outcome (bf : BinaryFile) (polls : list (list byte * bool))
    (st : State) (attemptCntr : Z) (port_open : bool) :
  match result_of (main_loop bf polls (st, attemptCntr, port_open)) with
  | Ok true =>
      snd (state_of (main_loop bf polls (st, attemptCntr, port_open))) = false /\
      exists t,
        trace_of (main_loop bf polls (st, attemptCntr, port_open))
        = t ++ [Print [PyStr "Stop serial pooling!"];
                Print [PyStr "     Stop serial pooling!"]]
  | Ok false =>
      snd (state_of (main_loop bf polls (st, attemptCntr, port_open))) = port_open /\
      snd (fst (state_of (main_loop bf polls (st, attemptCntr, port_open))))
      = attemptCntr + idle_polls polls /\
      Forall (fun poll => snd poll = false) polls
  | Raise _ =>
      snd (state_of (main_loop bf polls (st, attemptCntr, port_open))) = port_open
  end.
Proof.
  revert st attemptCntr.
  induction polls as [|[in_buffer q] polls IH]; intros st attemptCntr.
  - cbn. repeat split; [lia | constructor].
  - cbn [main_loop]. cbv beta iota. rewrite main_iteration_cases.
    destruct in_buffer as [|b rest];
      match goal with
      | |- context [execute bf ?input st] =>
          destruct (execute bf input st) as [[t1 st'] [[]|e]]
      end; try reflexivity; cbv beta iota;
      match goal with
      | |- context [if ?c then _ else _] => destruct c eqn:Hq
      end.
    + cbn. split; [reflexivity | exists t1; reflexivity].
    + apply orb_false_iff in Hq as [-> _]. after_iteration IH.
    + cbn. split; [reflexivity | eexists (_ :: t1); reflexivity].
    + apply orb_false_iff in Hq as [-> _]. after_iteration IH.
Qed.

(** X17. The loop ends at the latest in the iteration where 'q' is down:
    that iteration still reads the port and runs the machine once, then the
    loop breaks, so whatever would have been observed afterwards changes
    nothing, and the loop does not go on past it. *)
Theorem main_loop_stops_at_q (bf : BinaryFile) (before after : list (list byte * bool))
    (in_buffer : list byte) (s : State * Z * bool) :
  main_loop bf (before ++ (in_buffer, true) :: after) s
  = main_loop bf (before ++ [(in_buffer, true)]) s /\
  result_of (main_loop bf (before ++ (in_buffer, true) :: after) s) <> Ok false.
Proof.
  revert s. induction before as [|[buf q] before IH]; intros [[st c] port].
  - cbn [app main_loop]. cbv beta iota.
    destruct (main_iteration bf in_buffer (st, c)) as [[t1 [st' c']] [[]|e]];
      cbn; split; try reflexivity; discriminate.
  - cbn [app main_loop]. cbv beta iota.
    destruct (main_iteration bf buf (st, c)) as [[t1 [st' c']] [[]|e]];
      [|split; [reflexivity | discriminate]].
    destruct (q || (c' >=? 600000000000));
      [cbn; split; [reflexivity | discriminate]|].
    destruct (IH (st', c', port)) as [Heq Hne]. rewrite Heq.
    split; [reflexivity|]. rewrite Heq in Hne.
    destruct (main_loop bf (before ++ [(in_buffer, true)]) (st', c', port))
      as [[t2 s2] r]. exact Hne.
Qed.

(** X18. The program as a whole: with a firmware file of at most 516 bytes
    it ends in the IndexError of the load before the loop is entered: no
    port input is ever read, nothing is printed or written, and the port
    that was opened first is left open.  With a longer file the loop runs on
    the image the load built, from Idle_01 with the idle counter at 0, after
    the six lines of the load and the two banner lines. *)
Theorem main_program_load_first (contents : list byte)
    (polls : list (list byte * bool)) :
  (len contents <= 516 ->
   main_program contents polls
   = ([], (state_of (loadBinary contents BinaryFile_init), (Idle_01, 0, true)),
      Raise IndexError)) /\
  (516 < len contents ->
   let image := state_of (loadBinary contents BinaryFile_init) in
   main_program contents polls
   = (trace_of (loadBinary contents BinaryFile_init)
      ++ [Print [PyStr "--> SW Loader @ V1.0. Waiting for device communication <--"];
          Print [PyStr "--> Matheus Sozza @ 2023 <--"]]
      ++ trace_of (main_loop image polls (Idle_01, 0, true)),
      (image, state_of (main_loop image polls (Idle_01, 0, true))),
      result_of (main_loop image polls (Idle_01, 0, true)))).
Proof.
  pose proof (loadBinary_result contents) as Hres. split.
  - intros Hshort.
    destruct (proj1 (loadBinary_needs_517_bytes_aux contents) Hshort) as [Hr Ht].
    unfold main_program.
    destruct (loadBinary contents BinaryFile_init) as [[t0 image] r0].
    unfold result_of, trace_of, state_of in Hr, Ht |- *. cbn [fst snd] in Hr, Ht |- *.
    subst r0 t0. reflexivity.
  - intros Hlong. cbv zeta.
    destruct (Z.leb_spec (len contents) 516) as [Hle|_]; [lia|].
    unfold main_program.
    destruct (loadBinary contents BinaryFile_init) as [[t0 image] r0].
    unfold result_of, trace_of, state_of in Hres |- *. cbn [fst snd] in Hres |- *.
    subst r0.
    destruct (main_loop image polls (Idle_01, 0, true)) as [[t1 s1] r1].
    reflexivity.
Qed.

Lemma main_program_load_first_witness :
  main_program [x01; x02; x03] [([x80; xff; xff; xff], false)]
  = ([], (state_of (loadBinary [x01; x02; x03] BinaryFile_init), (Idle_01, 0, true)),
     Raise IndexError).
Proof.
  apply (proj1 (main_program_load_first [x01; x02; x03]
                  [([x80; xff; xff; xff], false)])).
  vm_compute. discriminate.
Defined.

(** ** Ticks that raise *)

Lemma stateTransition_raise (bf : BinaryFile) (input : Input) (s1 : State)
    (e : exn) :
  result_of (stateTransition bf input s1) = Raise e ->
  writes (trace_of (stateTransition bf input s1)) = [] /\
  state_of (stateTransition bf input s1) = s1.
Proof.
  destruct s1 as [| | |n| |].
  - unfold stateTransition, Idle_01_stateTransition.
    destruct (has_opcode input 0x80); [|discriminate].
    unfold bind, lift, print, emit, ret, state_of, result_of, trace_of.
    destruct (py_int (SW_MAJOR bf)) as [major|e1]; [|split; reflexivity].
    destruct (to_bytes major 1) as [mj|e1]; [|split; reflexivity].
    destruct (py_int (SW_MINOR bf)) as [minor|e1]; [|split; reflexivity].
    destruct (to_bytes minor 1) as [mn|e1]; [|split; reflexivity].
    cbv beta iota zeta. rewrite writeSerialBuffer_hex. discriminate.
  - unfold stateTransition, CheckHeaderAndEraseMem_02_stateTransition.
    destruct (has_opcode input 0x8E); [discriminate|].
    destruct (has_opcode input 0x81); [|discriminate].
    unfold input_at, bind, lift, print, emit, ret, raise, state_of, result_of, trace_of.
    destruct input as [bs|]; [|split; reflexivity].
    destruct (getitem bs 2) as [flag|e1]; [|split; reflexivity]. cbv beta iota.
    destruct (byte_to_Z flag =? 0x01); [|discriminate].
    destruct (to_bytes (fileSizePackets bf) 3) as [sz|e1]; [|split; reflexivity].
    cbv beta iota zeta. rewrite writeSerialBuffer_hex. discriminate.
  - unfold stateTransition, Prepare2Flash_03_stateTransition.
    destruct (has_opcode input 0x82); discriminate.
  - unfold stateTransition, SendFlashData_04_stateTransition.
    destruct (has_opcode input 0x84).
    + unfold input_at, bind, gets, print, emit, ret, raise, state_of, result_of, trace_of.
      destruct input as [bs|]; [|split; reflexivity].
      destruct (getitem bs 2) as [msb|e1]; [|split; reflexivity]. cbv beta iota.
      destruct (byte_to_Z msb =? CRC_MSB bf); [|discriminate].
      destruct (getitem bs 3) as [lsb|e1]; [|split; reflexivity]. cbv beta iota.
      destruct (byte_to_Z lsb =? CRC_LSB bf); discriminate.
    + destruct (has_opcode input 0x8F); discriminate.
  - unfold stateTransition, FlashDone_99_stateTransition.
    destruct (has_opcode input 0x85); discriminate.
  - discriminate.
Qed.

Lemma stateActions_no_counter (bf : BinaryFile) (input : Input) (st : State) :
  kind st <> KSendFlashData ->
  writes (trace_of (stateActions bf input st)) = [] /\
  state_of (stateActions bf input st) = st.
Proof.
  intros Hk. destruct st as [| | |n| |]; try (split; reflexivity).
  - unfold stateActions, CheckHeaderAndEraseMem_02_stateActions.
    destruct (has_opcode input 0x81); [|split; reflexivity].
    unfold input_at, bind, print, emit, ret, raise.
    destruct input as [bs|]; [|split; reflexivity].
    destruct (getitem bs 1); split; reflexivity.
  - unfold stateActions, Prepare2Flash_03_stateActions.
    destruct (has_opcode input 0x81); split; reflexivity.
  - now elim Hk.
Qed.

(** X19. Outside the streaming state a tick that raises has done nothing to
    the port or the machine: whenever [execute] ends in an exception in
    Idle_01 or CheckHeaderAndEraseMem_02 (the other three never raise),
    nothing was written and the state is the one it started in.  A reply or
    a packet count is therefore either written whole, with the transition
    made, or not at all. *)
Theorem raising_tick_writes_nothing (bf : BinaryFile) (input : Input) (st : State)
    (e : exn) :
  kind st <> KSendFlashData ->
  result_of (execute bf input st) = Raise e ->
  writes (trace_of (execute bf input st)) = [] /\
  state_of (execute bf input st) = st /\
  (kind st = KIdle \/ kind st = KCheckHeaderAndEraseMem).
Proof.
  intros Hk Hr.
  assert (kind st = KIdle \/ kind st = KCheckHeaderAndEraseMem) as Hst.
  { destruct st; auto; try (now elim Hk); exfalso;
      match type of Hr with
      | result_of (execute bf input ?q) = _ =>
          rewrite (proj1 (quiet_states_ok bf input q ltac:(cbn; tauto))) in Hr
      end; discriminate. }
  destruct (stateActions_no_counter bf input st Hk) as [Hw Hs].
  unfold execute, bind in Hr |- *.
  destruct (stateActions bf input st) as [[t1 s1] [[]|e1]];
    unfold trace_of, state_of, result_of in Hw, Hs, Hr |- *;
    cbn [fst snd] in Hw, Hs, Hr |- *; subst s1; [|auto].
  pose proof (stateTransition_raise bf input st) as Ht.
  destruct (stateTransition bf input st) as [[t2 s2] [[nxt|]|e2]];
    unfold put, ret in Hr |- *; cbn [fst snd] in Hr |- *; try discriminate.
  destruct (Ht e2 eq_refl) as [Hw2 Hs2].
  unfold trace_of, state_of in Hw2, Hs2. cbn [fst snd] in Hw2, Hs2.
  rewrite writes_app, Hw, Hw2. auto.
Qed.

(** The one-byte read 0x81 in CheckHeaderAndEraseMem_02. *)
Lemma raising_tick_writes_nothing_witness :
  writes (trace_of (execute (sample_image x01 x02) (Some [x81])
                      CheckHeaderAndEraseMem_02)) = [] /\
  state_of (execute (sample_image x01 x02) (Some [x81]) CheckHeaderAndEraseMem_02)
  = CheckHeaderAndEraseMem_02.
Proof.
  destruct (raising_tick_writes_nothing (sample_image x01 x02) (Some [x81])
              CheckHeaderAndEraseMem_02 IndexError ltac:(discriminate) eq_refl)
    as (Hw & Hs & _).
  split; [exact Hw | exact Hs].
Defined.
